(** * Miner health monitoring system: classifier and monitoring controller

    A shallow embedding of [miner_health_monitor_simulation.py] (class
    [MinerHealthMonitor]) and of the classifier of
    [miner_health_monitor_dashboard.py] (class [MinerHealthMonitorGraphical]),
    with the properties of the specification stated over it.

    Modelling choices.
    - Python [int] is [Z]; Python [float] is the primitive binary64 [float],
      so that a comparison with a threshold is the IEEE comparison, NaN
      included.
    - The methods of [MinerHealthMonitor] mutate [self] and print.  They are
      written in a small state-and-output monad [Method]: the state is the
      object, the output is the list of transmissions handed to
      [transmit_data].  Console messages other than transmissions are not
      recorded.
    - [random] and [datetime.now] are the environment: one record [Draws] per
      call of [simulate_sensor_readings] holds the values they return.
    - [time.sleep] and the wall-clock bound of the [while] loop are not
      modelled: a run is a finite list of loop iterations.
    - Of the dashboard, the data that [add_measurement] and
      [set_health_status] keep is modelled ([deque]s as lists, oldest entry
      first); the matplotlib rendering is not. *)

From Stdlib Require Import ZArith Bool List Lia.
From Stdlib Require Import Floats.
From Stdlib Require String.
Import String.StringSyntax.
Import ListNotations.

Delimit Scope string_scope with string.

#[local] Open Scope Z_scope.
#[local] Set Warnings "-inexact-float".

(** ** Enumerations *)

Module SystemState.
Inductive t : Set :=
  | SLEEP
  | WAKING
  | MONITORING
  | EXTENDED_MONITORING
  | EMERGENCY
  | TRANSMITTING.
End SystemState.

Module HealthStatus.
Inductive t : Set :=
  | NORMAL
  | WARNING
  | CRITICAL
  | EMERGENCY.

Definition eqb (a b : t) : bool :=
  match a, b with
  | NORMAL, NORMAL | WARNING, WARNING
  | CRITICAL, CRITICAL | EMERGENCY, EMERGENCY => true
  | _, _ => false
  end.
End HealthStatus.

(** ** class VitalSigns *)

Record VitalSigns : Set := mkVitalSigns {
  spo2 : Z;
  heart_rate : Z;
  bp_systolic : Z;
  bp_diastolic : Z;
  temperature : float;
  accel_x : float;
  accel_y : float;
  accel_z : float;
  fall_detected : bool;
  no_movement : bool;
  timestamp : option Z
}.

(** [VitalSigns()], the constructor's defaults. *)
Definition VitalSigns_init : VitalSigns :=
  mkVitalSigns 0 0 0 0 0%float 0%float 0%float 0%float false false None.

(** ** class MinerHealthMonitor: constants and object state *)

Definition SPO2_MIN_NORMAL : Z := 92.
Definition SPO2_MIN_CRITICAL : Z := 85.
Definition HEART_RATE_MIN : Z := 45.
Definition HEART_RATE_MAX : Z := 120.
Definition HEART_RATE_CRITICAL_MIN : Z := 40.
Definition HEART_RATE_CRITICAL_MAX : Z := 150.
Definition TEMP_MIN_NORMAL : float := 35.5%float.
Definition TEMP_MAX_NORMAL : float := 38.5%float.
Definition TEMP_CRITICAL_MIN : float := 35.0%float.
Definition TEMP_CRITICAL_MAX : float := 40.0%float.

Definition NORMAL_INTERVAL : Z := 35.
Definition EXTENDED_INTERVAL : Z := 10.
Definition EMERGENCY_INTERVAL : Z := 5.

Record MinerHealthMonitor : Set := mkMonitor {
  current_state : SystemState.t;
  health_status : HealthStatus.t;
  vitals : VitalSigns;
  monitoring_interval : Z;
  anomaly_count : Z;
  emergency_sent : bool;
  measurement_count : Z
}.

(** [MinerHealthMonitor.__init__]. *)
Definition init : MinerHealthMonitor :=
  mkMonitor SystemState.SLEEP HealthStatus.NORMAL VitalSigns_init
            NORMAL_INTERVAL 0 false 0.

(** Attribute assignments [self.f = x]. *)
Definition set_current_state (x : SystemState.t) (self : MinerHealthMonitor) :=
  mkMonitor x (health_status self) (vitals self) (monitoring_interval self)
            (anomaly_count self) (emergency_sent self) (measurement_count self).
Definition set_health_status (x : HealthStatus.t) (self : MinerHealthMonitor) :=
  mkMonitor (current_state self) x (vitals self) (monitoring_interval self)
            (anomaly_count self) (emergency_sent self) (measurement_count self).
Definition set_vitals (x : VitalSigns) (self : MinerHealthMonitor) :=
  mkMonitor (current_state self) (health_status self) x (monitoring_interval self)
            (anomaly_count self) (emergency_sent self) (measurement_count self).
Definition set_monitoring_interval (x : Z) (self : MinerHealthMonitor) :=
  mkMonitor (current_state self) (health_status self) (vitals self) x
            (anomaly_count self) (emergency_sent self) (measurement_count self).
Definition set_anomaly_count (x : Z) (self : MinerHealthMonitor) :=
  mkMonitor (current_state self) (health_status self) (vitals self)
            (monitoring_interval self) x (emergency_sent self) (measurement_count self).
Definition set_emergency_sent (x : bool) (self : MinerHealthMonitor) :=
  mkMonitor (current_state self) (health_status self) (vitals self)
            (monitoring_interval self) (anomaly_count self) x (measurement_count self).
Definition set_measurement_count (x : Z) (self : MinerHealthMonitor) :=
  mkMonitor (current_state self) (health_status self) (vitals self)
            (monitoring_interval self) (anomaly_count self) (emergency_sent self) x.

(** ** Methods: state of [self] threaded, transmissions collected *)

(** What one call of [transmit_data] sends: the flag it was called with and
    the fields of [self] it prints. *)
Record Transmission : Set := mkTransmission {
  is_emergency : bool;
  sent_vitals : VitalSigns;
  sent_status : HealthStatus.t
}.

Definition Method (A : Type) : Type :=
  MinerHealthMonitor -> A * MinerHealthMonitor * list Transmission.

Definition ret {A : Type} (a : A) : Method A :=
  fun self => (a, self, []).

Definition bind {A B : Type} (c : Method A) (k : A -> Method B) : Method B :=
  fun self =>
    let '(a, self1, out1) := c self in
    let '(b, self2, out2) := k a self1 in
    (b, self2, out1 ++ out2).

Declare Scope method_scope.
Delimit Scope method_scope with method.
Notation "x <- c ;; k" := (bind c (fun x => k))
  (at level 61, c at next level, right associativity) : method_scope.
Notation "c ;; k" := (bind c (fun _ => k))
  (at level 61, right associativity) : method_scope.
#[local] Open Scope method_scope.

(** Reading an attribute of [self], assigning to one, sending. *)
Definition read {A : Type} (f : MinerHealthMonitor -> A) : Method A :=
  fun self => (f self, self, []).
Definition assign (upd : MinerHealthMonitor -> MinerHealthMonitor) : Method unit :=
  fun self => (tt, upd self, []).
Definition send (t : Transmission) : Method unit :=
  fun self => (tt, self, [t]).
Definition when (b : bool) (c : Method unit) : Method unit :=
  if b then c else ret tt.

(** The object after a method call, and what the call transmitted. *)
Definition state_after {A : Type} (c : Method A) (self : MinerHealthMonitor)
  : MinerHealthMonitor := snd (fst (c self)).
Definition sent_by {A : Type} (c : Method A) (self : MinerHealthMonitor)
  : list Transmission := snd (c self).
Definition result_of {A : Type} (c : Method A) (self : MinerHealthMonitor)
  : A := fst (fst (c self)).

(** ** analyze_health *)

(** Lines 104-138: the two local counters after the four checks, as the pair
    [(warning_flags, critical_flags)]. *)
Definition count_flags (v : VitalSigns) : Z * Z :=
  let warning_flags := 0 in
  let critical_flags := 0 in
  (* Check SpO2 *)
  let '(warning_flags, critical_flags) :=
    if spo2 v <? SPO2_MIN_CRITICAL then (warning_flags, critical_flags + 1)
    else if spo2 v <? SPO2_MIN_NORMAL then (warning_flags + 1, critical_flags)
    else (warning_flags, critical_flags) in
  (* Check Heart Rate *)
  let '(warning_flags, critical_flags) :=
    if (heart_rate v <? HEART_RATE_CRITICAL_MIN)
       || (HEART_RATE_CRITICAL_MAX <? heart_rate v)
    then (warning_flags, critical_flags + 1)
    else if (heart_rate v <? HEART_RATE_MIN)
            || (HEART_RATE_MAX <? heart_rate v)
    then (warning_flags + 1, critical_flags)
    else (warning_flags, critical_flags) in
  (* Check Temperature *)
  let '(warning_flags, critical_flags) :=
    if (temperature v <? TEMP_CRITICAL_MIN)%float
       || (TEMP_CRITICAL_MAX <? temperature v)%float
    then (warning_flags, critical_flags + 1)
    else if (temperature v <? TEMP_MIN_NORMAL)%float
            || (TEMP_MAX_NORMAL <? temperature v)%float
    then (warning_flags + 1, critical_flags)
    else (warning_flags, critical_flags) in
  (* Check for fall *)
  let '(warning_flags, critical_flags) :=
    if fall_detected v then (warning_flags, critical_flags + 1)
    else (warning_flags, critical_flags) in
  (warning_flags, critical_flags).

(** Lines 140-148: the overall status from the counters. *)
Definition overall_status (v : VitalSigns) (flags : Z * Z) : HealthStatus.t :=
  let '(warning_flags, critical_flags) := flags in
  if (0 <? critical_flags) || fall_detected v then HealthStatus.EMERGENCY
  else if 2 <=? warning_flags then HealthStatus.CRITICAL
  else if 0 <? warning_flags then HealthStatus.WARNING
  else HealthStatus.NORMAL.

Definition analyze_health : Method HealthStatus.t :=
  v <- read vitals ;;
  ret (overall_status v (count_flags v)).

(** ** handle_health_status and transmit_data *)

Definition transmit_data (is_emergency : bool) : Method unit :=
  v <- read vitals ;;
  s <- read health_status ;;
  send (mkTransmission is_emergency v s).

Definition handle_health_status (status : HealthStatus.t) : Method unit :=
  match status with
  | HealthStatus.NORMAL =>
      assign (set_monitoring_interval NORMAL_INTERVAL) ;;
      assign (set_anomaly_count 0) ;;
      assign (set_emergency_sent false)
  | HealthStatus.WARNING =>
      n <- read anomaly_count ;;
      assign (set_anomaly_count (n + 1)) ;;
      n <- read anomaly_count ;;
      when (2 <=? n)
        (assign (set_monitoring_interval EXTENDED_INTERVAL) ;;
         assign (set_current_state SystemState.EXTENDED_MONITORING))
  | HealthStatus.CRITICAL =>
      assign (set_monitoring_interval EXTENDED_INTERVAL) ;;
      assign (set_current_state SystemState.EXTENDED_MONITORING) ;;
      transmit_data false
  | HealthStatus.EMERGENCY =>
      assign (set_monitoring_interval EMERGENCY_INTERVAL) ;;
      assign (set_current_state SystemState.EMERGENCY) ;;
      sent <- read emergency_sent ;;
      when (negb sent)
        (transmit_data true ;;
         assign (set_emergency_sent true))
  end.

(** ** simulate_sensor_readings *)

(** The values [random] and [datetime.now] return during one call.  The
    three anomaly draws are only consumed on the measurements that inject
    the anomaly. *)
Record Draws : Set := mkDraws {
  now : Z;
  rand_spo2 : Z;               (* random.randint(95, 99) *)
  rand_heart_rate : Z;         (* random.randint(70, 90) *)
  rand_bp_systolic : Z;        (* random.randint(110, 130) *)
  rand_bp_diastolic : Z;       (* random.randint(70, 85) *)
  rand_temperature : float;    (* round(random.uniform(36.2, 37.2), 2) *)
  rand_accel_x : float;        (* round(random.uniform(-0.2, 0.2), 2) *)
  rand_accel_y : float;
  rand_accel_z : float;        (* round(random.uniform(0.9, 1.1), 2) *)
  rand_low_spo2 : Z;           (* random.randint(87, 91) *)
  rand_high_heart_rate : Z;    (* random.randint(122, 135) *)
  rand_fall_x : float;         (* random.uniform(-3.0, 3.0) *)
  rand_fall_y : float;
  rand_fall_z : float          (* random.uniform(3.5, 4.5) *)
}.

(** The sample the method leaves in [self.vitals] when [n] is the value of
    [measurement_count] after its increment. *)
Definition simulated_sample (d : Draws) (n : Z) : VitalSigns :=
  let v := mkVitalSigns (rand_spo2 d) (rand_heart_rate d)
             (rand_bp_systolic d) (rand_bp_diastolic d) (rand_temperature d)
             (rand_accel_x d) (rand_accel_y d) (rand_accel_z d)
             false false (Some (now d)) in
  (* Every 8th measurement - low SpO2 *)
  let v :=
    if n mod 8 =? 0
    then mkVitalSigns (rand_low_spo2 d) (heart_rate v) (bp_systolic v)
           (bp_diastolic v) (temperature v) (accel_x v) (accel_y v)
           (accel_z v) (fall_detected v) (no_movement v) (timestamp v)
    else v in
  (* Every 12th measurement - high heart rate *)
  let v :=
    if n mod 12 =? 0
    then mkVitalSigns (spo2 v) (rand_high_heart_rate d) (bp_systolic v)
           (bp_diastolic v) (temperature v) (accel_x v) (accel_y v)
           (accel_z v) (fall_detected v) (no_movement v) (timestamp v)
    else v in
  (* Every 15th measurement - fall *)
  if n mod 15 =? 0
  then mkVitalSigns (spo2 v) (heart_rate v) (bp_systolic v) (bp_diastolic v)
         (temperature v) (rand_fall_x d) (rand_fall_y d) (rand_fall_z d)
         true (no_movement v) (timestamp v)
  else v.

Definition simulate_sensor_readings (d : Draws) : Method unit :=
  n <- read measurement_count ;;
  assign (set_measurement_count (n + 1)) ;;
  n <- read measurement_count ;;
  assign (set_vitals (simulated_sample d n)).

(** ** run: the body of the monitoring loop *)

(** Lines 248-264, everything after the sensor step ([log_vitals] only
    prints): classify the sample in [self.vitals], record and handle the
    status, then the power-down check, whose last branch puts the state back
    to [SLEEP]. *)
Definition analyze_and_handle : Method unit :=
  status <- analyze_health ;;
  assign (set_health_status status) ;;
  handle_health_status status ;;
  st <- read current_state ;;
  match st with
  | SystemState.EMERGENCY => ret tt
  | SystemState.EXTENDED_MONITORING => ret tt
  | _ => assign (set_current_state SystemState.SLEEP)
  end.

(** One iteration of the [while] loop of [run]. *)
Definition monitoring_cycle (d : Draws) : Method unit :=
  simulate_sensor_readings d ;;
  analyze_and_handle.

(** One iteration in which the sensor step leaves the sample [v] in
    [self.vitals] (and counts the measurement).  [monitoring_cycle_is_cycle]
    below shows every iteration of [run] to be of this form; the properties
    of the controller are stated over all samples [v]. *)
Definition cycle (v : VitalSigns) : Method unit :=
  n <- read measurement_count ;;
  assign (set_measurement_count (n + 1)) ;;
  assign (set_vitals v) ;;
  analyze_and_handle.

(** Consecutive iterations on the given samples. *)
Fixpoint cycles (vs : list VitalSigns) : Method unit :=
  match vs with
  | [] => ret tt
  | v :: vs' => cycle v ;; cycles vs'
  end.

(** The status the classifier gives a sample. *)
Definition classify (v : VitalSigns) : HealthStatus.t :=
  overall_status v (count_flags v).

(** ** run: the loop *)

(** What [run] holds when its loop ends: the object, the transmissions made
    and the local [cycle_count]. *)
Inductive RunResult : Set :=
  | Completed (self : MinerHealthMonitor) (out : list Transmission) (cycle_count : Z).

Definition after_sending (out : list Transmission) (r : RunResult) : RunResult :=
  match r with
  | Completed self out' n => Completed self (out ++ out') n
  end.

(** The [while] loop of [run], with the draws of one call of
    [simulate_sensor_readings] per iteration the clock allows. *)
Fixpoint run_loop (env : list Draws) (cycle_count : Z)
    (self : MinerHealthMonitor) : RunResult :=
  match env with
  | [] => Completed self [] cycle_count
  | d :: env' =>
      let cycle_count := cycle_count + 1 in
      let '(_, self1, out) := monitoring_cycle d self in
      after_sending out (run_loop env' cycle_count self1)
  end.

Definition run (env : list Draws) (self : MinerHealthMonitor) : RunResult :=
  run_loop env 0 self.

(** ** class MinerHealthMonitorGraphical: the dashboard's classifier *)

Module Dashboard.

Definition SPO2_MIN_NORMAL : Z := 92.
Definition SPO2_MIN_CRITICAL : Z := 85.
Definition HEART_RATE_MIN : Z := 45.
Definition HEART_RATE_MAX : Z := 120.
Definition TEMP_MIN_NORMAL : float := 35.5%float.
Definition TEMP_MAX_NORMAL : float := 38.5%float.

(** [MinerHealthMonitorGraphical.analyze_health(heart_rate, spo2, temperature)]:
    it reads nothing of [self] but the constants. *)
Definition analyze_health (heart_rate spo2 : Z) (temperature : float)
  : HealthStatus.t :=
  let warning_flags := 0 in
  let critical_flags := 0 in
  let '(warning_flags, critical_flags) :=
    if spo2 <? SPO2_MIN_CRITICAL then (warning_flags, critical_flags + 1)
    else if spo2 <? SPO2_MIN_NORMAL then (warning_flags + 1, critical_flags)
    else (warning_flags, critical_flags) in
  let '(warning_flags, critical_flags) :=
    if (heart_rate <? 40) || (150 <? heart_rate)
    then (warning_flags, critical_flags + 1)
    else if (heart_rate <? HEART_RATE_MIN) || (HEART_RATE_MAX <? heart_rate)
    then (warning_flags + 1, critical_flags)
    else (warning_flags, critical_flags) in
  let '(warning_flags, critical_flags) :=
    if (temperature <? 35.0)%float || (40.0 <? temperature)%float
    then (warning_flags, critical_flags + 1)
    else if (temperature <? TEMP_MIN_NORMAL)%float
            || (TEMP_MAX_NORMAL <? temperature)%float
    then (warning_flags + 1, critical_flags)
    else (warning_flags, critical_flags) in
  if 0 <? critical_flags then HealthStatus.EMERGENCY
  else if 2 <=? warning_flags then HealthStatus.CRITICAL
  else if 0 <? warning_flags then HealthStatus.WARNING
  else HealthStatus.NORMAL.

End Dashboard.

(** ** The classifier as the specification words it *)

(** The bands of the threshold table, each as a test on the signal. *)
Definition spo2_critical_band (s : Z) : bool := s <? 85.
Definition spo2_warning_band (s : Z) : bool := (85 <=? s) && (s <=? 91).
Definition spo2_normal_band (s : Z) : bool := 92 <=? s.

Definition heart_rate_critical_band (h : Z) : bool := (h <? 40) || (150 <? h).
Definition heart_rate_warning_band (h : Z) : bool :=
  ((h <? 45) || (120 <? h)) && ((40 <=? h) && (h <=? 150)).

Definition temperature_critical_band (t : float) : bool :=
  (t <? 35.0)%float || (40.0 <? t)%float.
Definition temperature_warning_band (t : float) : bool :=
  ((t <? 35.5)%float || (38.5 <? t)%float)
  && ((35.0 <=? t)%float && (t <=? 40.0)%float).

(** One flag per signal in the band, one more critical flag for a fall. *)
Definition spec_warning_flags (v : VitalSigns) : Z :=
  Z.b2z (spo2_warning_band (spo2 v))
  + Z.b2z (heart_rate_warning_band (heart_rate v))
  + Z.b2z (temperature_warning_band (temperature v)).

Definition spec_critical_flags (v : VitalSigns) : Z :=
  Z.b2z (spo2_critical_band (spo2 v))
  + Z.b2z (heart_rate_critical_band (heart_rate v))
  + Z.b2z (temperature_critical_band (temperature v))
  + Z.b2z (fall_detected v).

(** The decision rule, in its priority order. *)
Definition classify_spec (v : VitalSigns) : HealthStatus.t :=
  if (0 <? spec_critical_flags v) || fall_detected v then HealthStatus.EMERGENCY
  else if 2 <=? spec_warning_flags v then HealthStatus.CRITICAL
  else if 1 <=? spec_warning_flags v then HealthStatus.WARNING
  else HealthStatus.NORMAL.

(** ** Notions the properties are stated with *)

(** The power-down check of [run]: the state it leaves. *)
Definition power_down (st : SystemState.t) : SystemState.t :=
  match st with
  | SystemState.EMERGENCY => SystemState.EMERGENCY
  | SystemState.EXTENDED_MONITORING => SystemState.EXTENDED_MONITORING
  | _ => SystemState.SLEEP
  end.

(** The objects a run can hold between two iterations. *)
Inductive reachable : MinerHealthMonitor -> Prop :=
  | reachable_init : reachable init
  | reachable_cycle (self : MinerHealthMonitor) (v : VitalSigns) :
      reachable self -> reachable (state_after (cycle v) self).

(** The longest prefix of a list whose elements all pass [p]. *)
Fixpoint take_while {A : Type} (p : A -> bool) (l : list A) : list A :=
  match l with
  | [] => []
  | a :: l' => if p a then a :: take_while p l' else []
  end.

Definition is_normal (s : HealthStatus.t) : bool :=
  HealthStatus.eqb s HealthStatus.NORMAL.
Definition is_warning (s : HealthStatus.t) : bool :=
  HealthStatus.eqb s HealthStatus.WARNING.

(** Of the statuses of the cycles so far, oldest first, those after the last
    Normal one: the current streak of Warning-or-worse cycles. *)
Definition since_last_normal (history : list HealthStatus.t)
  : list HealthStatus.t :=
  rev (take_while (fun s => negb (is_normal s)) (rev history)).

(** The number of consecutive immediately preceding cycles classified
    Warning or worse. *)
Definition anomalous_streak (history : list HealthStatus.t) : Z :=
  Z.of_nat (length (since_last_normal history)).

(** The number of those classified Warning. *)
Definition warnings_since_normal (history : list HealthStatus.t) : Z :=
  Z.of_nat (length (filter is_warning (since_last_normal history))).

(** The three values the interval takes. *)
Definition fixed_interval (n : Z) : Prop := n = 35 \/ n = 10 \/ n = 5.

(** ** Concrete inputs *)

(** Samples of the four classes, used to run the code. *)
Definition healthy : VitalSigns :=
  mkVitalSigns 99 78 120 80 36.8%float 0%float 0%float 1%float false false None.
Definition low_spo2 : VitalSigns :=
  mkVitalSigns 90 78 120 80 36.8%float 0%float 0%float 1%float false false None.
Definition low_spo2_high_rate : VitalSigns :=
  mkVitalSigns 90 130 120 80 36.8%float 0%float 0%float 1%float false false None.
Definition very_low_spo2 : VitalSigns :=
  mkVitalSigns 80 78 120 80 36.8%float 0%float 0%float 1%float false false None.
Definition fallen : VitalSigns :=
  mkVitalSigns 99 78 120 80 36.8%float 0%float 0%float 4%float true false None.

(** Draws inside the ranges the method asks [random] for. *)
Definition usual_draws : Draws :=
  mkDraws 0 97 80 120 80 36.7%float 0.1%float 0.1%float 1%float
          89 128 1.5%float 1.5%float 4%float.

(** ** The simulated source within the ranges it draws from *)

(** The draws [random] can return for the arguments the method passes. *)
Definition draws_in_range (d : Draws) : bool :=
  (95 <=? rand_spo2 d) && (rand_spo2 d <=? 99)
  && (70 <=? rand_heart_rate d) && (rand_heart_rate d <=? 90)
  && (110 <=? rand_bp_systolic d) && (rand_bp_systolic d <=? 130)
  && (70 <=? rand_bp_diastolic d) && (rand_bp_diastolic d <=? 85)
  && (36.2 <=? rand_temperature d)%float
  && (rand_temperature d <=? 37.2)%float
  && ((-0.2) <=? rand_accel_x d)%float && (rand_accel_x d <=? 0.2)%float
  && ((-0.2) <=? rand_accel_y d)%float && (rand_accel_y d <=? 0.2)%float
  && (0.9 <=? rand_accel_z d)%float && (rand_accel_z d <=? 1.1)%float
  && (87 <=? rand_low_spo2 d) && (rand_low_spo2 d <=? 91)
  && (122 <=? rand_high_heart_rate d) && (rand_high_heart_rate d <=? 135)
  && ((-3.0) <=? rand_fall_x d)%float && (rand_fall_x d <=? 3.0)%float
  && ((-3.0) <=? rand_fall_y d)%float && (rand_fall_y d <=? 3.0)%float
  && (3.5 <=? rand_fall_z d)%float && (rand_fall_z d <=? 4.5)%float.

(** The status of the [n]-th measurement of the simulation, by the cadence
    of the injected anomalies. *)
Definition simulation_status (n : Z) : HealthStatus.t :=
  if n mod 15 =? 0 then HealthStatus.EMERGENCY
  else if (n mod 8 =? 0) && (n mod 12 =? 0) then HealthStatus.CRITICAL
  else if (n mod 8 =? 0) || (n mod 12 =? 0) then HealthStatus.WARNING
  else HealthStatus.NORMAL.

(** What a simulation sends on measurements [n + 1], [n + 2], ... with the
    given draws: an emergency transmission on every 15th measurement, a
    plain one on the others that are both an 8th and a 12th. *)
Fixpoint simulation_transmissions (n : Z) (ds : list Draws)
  : list Transmission :=
  match ds with
  | [] => []
  | d :: ds' =>
      (if (n + 1) mod 15 =? 0
       then [mkTransmission true (simulated_sample d (n + 1))
               HealthStatus.EMERGENCY]
       else if (n + 1) mod 24 =? 0
       then [mkTransmission false (simulated_sample d (n + 1))
               HealthStatus.CRITICAL]
       else [])
      ++ simulation_transmissions (n + 1) ds'
  end.

(** The parts of the result of [run]. *)
Definition final_object (r : RunResult) : MinerHealthMonitor :=
  match r with Completed self _ _ => self end.
Definition transmitted (r : RunResult) : list Transmission :=
  match r with Completed _ out _ => out end.

(** What holds of the object of a simulation after measurement [n], for
    draws inside the ranges: the measurements are counted; the latch is set
    only on a 15th measurement or on the even one right after it; the
    anomaly count is 0, or 1 on an 8th or 12th measurement or on a 15th that
    follows one; the state is Sleep before the first fall and escalated from
    it on. *)
Definition simulation_invariant (n : Z) (self : MinerHealthMonitor) : Prop :=
  (measurement_count self = n /\ 0 <= n)
  /\ (emergency_sent self = true ->
      n mod 15 = 0 \/ (n mod 15 = 1 /\ n mod 2 = 0))
  /\ (anomaly_count self = 0
      \/ (anomaly_count self = 1
          /\ ((n mod 8 = 0 \/ n mod 12 = 0)
              \/ (((n - 1) mod 8 = 0 \/ (n - 1) mod 12 = 0) /\ n mod 15 = 0))))
  /\ (n < 15 -> current_state self = SystemState.SLEEP)
  /\ (15 <= n ->
      current_state self = SystemState.EXTENDED_MONITORING
      \/ current_state self = SystemState.EMERGENCY).

(** The state is one of the two escalated ones. *)
Definition escalated (st : SystemState.t) : bool :=
  match st with
  | SystemState.EXTENDED_MONITORING | SystemState.EMERGENCY => true
  | _ => false
  end.

(** A sample with another temperature. *)
Definition with_temperature (t : float) (v : VitalSigns) : VitalSigns :=
  mkVitalSigns (spo2 v) (heart_rate v) (bp_systolic v) (bp_diastolic v) t
    (accel_x v) (accel_y v) (accel_z v) (fall_detected v) (no_movement v)
    (timestamp v).

(** ** class MinerDashboard: the data behind the plots *)

Module MinerDashboard.

(** The attributes [add_measurement] and [set_health_status] read and
    assign.  The [deque]s are lists, oldest entry first; the figure, the
    axes and the constant [sensors] table only feed the rendering, which is
    not modelled. *)
Record t : Type := mk {
  max_points : nat;
  time_data : list Z;
  heart_rate_data : list Z;
  spo2_data : list Z;
  temperature_data : list float;
  battery_data : list float;
  power_mode_data : list Z;
  battery_level : float;
  measurement_count : Z;
  health_status : HealthStatus.t;
  power_mode : String.string;
  last_transmission : String.string
}.

(** [MinerDashboard.__init__(max_data_points)], with [setup_dashboard]
    creating [power_mode_data]. *)
Definition init (max_data_points : nat) : t :=
  mk max_data_points [] [] [] [] [] [] 100.0%float 0 HealthStatus.NORMAL
     "SLEEP"%string "Never"%string.

(** [deque(maxlen=n).append(x)]: the new entry goes to the right and, when
    the deque was full, the leftmost one is dropped. *)
Definition deque_append {A : Type} (maxlen : nat) (x : A) (q : list A)
  : list A :=
  if Nat.ltb (length q) maxlen then q ++ [x] else tl (q ++ [x]).

(** [max(0, y)]: [y] when [y > 0], otherwise the first argument.  Python
    returns the integer [0] there; it is kept as the float of that value. *)
Definition max0 (y : float) : float :=
  if (0 <? y)%float then y else 0%float.

Definition add_measurement (heart_rate spo2 : Z) (temperature : float)
    (power_active : bool) (self : t) : t :=
  let current_time := Z.of_nat (length (time_data self)) in
  let discharge_rate := if power_active then 0.08%float else 0.02%float in
  let mode := if power_active then "ACTIVE"%string else "SLEEP"%string in
  let level := max0 (battery_level self - discharge_rate)%float in
  mk (max_points self)
     (deque_append (max_points self) current_time (time_data self))
     (deque_append (max_points self) heart_rate (heart_rate_data self))
     (deque_append (max_points self) spo2 (spo2_data self))
     (deque_append (max_points self) temperature (temperature_data self))
     (deque_append (max_points self) level (battery_data self))
     (deque_append (max_points self) (if power_active then 1 else 0)
        (power_mode_data self))
     level
     (measurement_count self + 1)
     (health_status self)
     mode
     (last_transmission self).

(** [set_health_status(status)]; [clock] is what
    [datetime.now().strftime('%H:%M:%S')] returns. *)
Definition set_health_status (clock : String.string) (status : HealthStatus.t)
    (self : t) : t :=
  mk (max_points self) (time_data self) (heart_rate_data self)
     (spo2_data self) (temperature_data self) (battery_data self)
     (power_mode_data self) (battery_level self) (measurement_count self)
     status (power_mode self)
     (match status with
      | HealthStatus.CRITICAL | HealthStatus.EMERGENCY => clock
      | _ => last_transmission self
      end).

(** One measurement as [add_measurement] takes it. *)
Record Measurement : Set := mkMeasurement {
  m_heart_rate : Z;
  m_spo2 : Z;
  m_temperature : float;
  m_power_active : bool
}.

Definition add (m : Measurement) (self : t) : t :=
  add_measurement (m_heart_rate m) (m_spo2 m) (m_temperature m)
    (m_power_active m) self.

(** Successive calls of [add_measurement]. *)
Definition add_all (ms : list Measurement) (self : t) : t :=
  fold_left (fun s m => add m s) ms self.

(** The six buffers hold the same number of entries, at most [max_points]. *)
Definition aligned (self : t) : Prop :=
  (length (time_data self) <= max_points self)%nat
  /\ length (heart_rate_data self) = length (time_data self)
  /\ length (spo2_data self) = length (time_data self)
  /\ length (temperature_data self) = length (time_data self)
  /\ length (battery_data self) = length (time_data self)
  /\ length (power_mode_data self) = length (time_data self).

End MinerDashboard.

(** ** class MinerHealthMonitorGraphical: the simulated vitals and the loop *)

Module Graphical.

Record t : Type := mk {
  dashboard : MinerDashboard.t;
  cycle_count : Z
}.

(** [MinerHealthMonitorGraphical.__init__], with the dashboard's default
    of 100 data points. *)
Definition init : t := mk (MinerDashboard.init 100) 0.

(** The values [random] returns during one call of [simulate_vitals]. *)
Record Draws : Set := mkDraws {
  rand_spo2 : Z;               (* random.randint(95, 99) *)
  rand_heart_rate : Z;         (* random.randint(70, 90) *)
  rand_temperature : float;    (* round(random.uniform(36.2, 37.2), 2) *)
  rand_low_spo2 : Z;           (* random.randint(87, 91) *)
  rand_high_heart_rate : Z;    (* random.randint(122, 135) *)
  rand_high_temperature : float (* round(random.uniform(38.6, 39.2), 2) *)
}.

Definition draws_in_range (d : Draws) : bool :=
  (95 <=? rand_spo2 d) && (rand_spo2 d <=? 99)
  && (70 <=? rand_heart_rate d) && (rand_heart_rate d <=? 90)
  && (36.2 <=? rand_temperature d)%float
  && (rand_temperature d <=? 37.2)%float
  && (87 <=? rand_low_spo2 d) && (rand_low_spo2 d <=? 91)
  && (122 <=? rand_high_heart_rate d) && (rand_high_heart_rate d <=? 135)
  && (38.6 <=? rand_high_temperature d)%float
  && (rand_high_temperature d <=? 39.2)%float.

(** [simulate_vitals]: the new object and the triple
    [(heart_rate, spo2, temperature)] it returns. *)
Definition simulate_vitals (d : Draws) (self : t) : t * (Z * Z * float) :=
  let n := cycle_count self + 1 in
  let spo2 := rand_spo2 d in
  let heart_rate := rand_heart_rate d in
  let temperature := rand_temperature d in
  let spo2 := if n mod 8 =? 0 then rand_low_spo2 d else spo2 in
  let heart_rate :=
    if n mod 12 =? 0 then rand_high_heart_rate d else heart_rate in
  let temperature :=
    if n mod 15 =? 0 then rand_high_temperature d else temperature in
  (mk (dashboard self) n, (heart_rate, spo2, temperature)).

(** The body of the [for] loop of [run]; [clock] is the time string the
    dashboard would stamp a transmission with.  The status is returned for
    the line the loop prints. *)
Definition run_cycle (d : Draws) (clock : String.string) (self : t)
  : t * HealthStatus.t :=
  let board :=
    MinerDashboard.add_measurement 70 96 36.5%float false (dashboard self) in
  let self := mk board (cycle_count self) in
  let '(self, (heart_rate, spo2, temperature)) := simulate_vitals d self in
  let health_status := Dashboard.analyze_health heart_rate spo2 temperature in
  let board :=
    MinerDashboard.set_health_status clock health_status (dashboard self) in
  let board :=
    MinerDashboard.add_measurement heart_rate spo2 temperature true board in
  (mk board (cycle_count self), health_status).

(** The [for] loop, one pair of draws and clock reading per iteration; the
    statuses of the iterations are collected in order. *)
Fixpoint run_cycles (env : list (Draws * String.string)) (self : t)
  : t * list HealthStatus.t :=
  match env with
  | [] => (self, [])
  | (d, clock) :: env' =>
      let '(self1, s) := run_cycle d clock self in
      let '(self2, ss) := run_cycles env' self1 in
      (self2, s :: ss)
  end.

(** The status of the [n]-th cycle of the dashboard's simulation: one
    warning for each of the three cadences that [n] falls on. *)
Definition simulation_status (n : Z) : HealthStatus.t :=
  let warnings :=
    Z.b2z (n mod 8 =? 0) + Z.b2z (n mod 12 =? 0) + Z.b2z (n mod 15 =? 0) in
  if 2 <=? warnings then HealthStatus.CRITICAL
  else if 1 <=? warnings then HealthStatus.WARNING
  else HealthStatus.NORMAL.

End Graphical.

(** Draws of the dashboard's simulation inside its ranges, and the
    measurement the dashboard's loop records while asleep. *)
Definition graphical_draws : Graphical.Draws :=
  Graphical.mkDraws 97 80 36.7%float 89 128 38.9%float.
Definition sleep_measurement : MinerDashboard.Measurement :=
  MinerDashboard.mkMeasurement 70 96 36.5%float false.

(** A battery level is zero or above it. *)
Definition charge_ok (b : float) : Prop :=
  b = 0%float \/ (0 <? b)%float = true.

(** * Properties *)

(** ** Comparisons of binary64 values *)

Lemma SFcompare_antisym (x y : spec_float) :
  SFcompare y x = option_map CompOpp (SFcompare x y).
Proof.
  destruct x as [sx | sx | | sx mx ex], y as [sy | sy | | sy my ey];
    cbn; try reflexivity;
    try (destruct sx; reflexivity); try (destruct sy; reflexivity);
    try (destruct sx, sy; reflexivity).
  destruct sx, sy; cbn; try reflexivity;
    rewrite (Z.compare_antisym ey ex);
    destruct (ey ?= ex) eqn:E; cbn; try reflexivity;
    rewrite (Pos.compare_cont_antisym mx my Eq); reflexivity.
Qed.

Lemma SFleb_negb_SFltb (x y : spec_float) :
  SFcompare x y <> None -> SFleb x y = negb (SFltb y x).
Proof.
  intros H. unfold SFleb, SFltb. rewrite (SFcompare_antisym x y).
  destruct (SFcompare x y) as [[ | | ] | ]; cbn; try reflexivity.
  contradiction H; reflexivity.
Qed.

Lemma SFcompare_nan_l (y : spec_float) : SFcompare S754_nan y = None.
Proof. reflexivity. Qed.

Lemma SFcompare_nan_r (x : spec_float) : SFcompare x S754_nan = None.
Proof. destruct x; reflexivity. Qed.

Lemma SFcompare_some (x y : spec_float) :
  x <> S754_nan -> y <> S754_nan -> SFcompare x y <> None.
Proof.
  intros Hx Hy. destruct x, y; cbn; try discriminate; congruence.
Qed.

(** A value is NaN and fails every comparison, or it is ordered against
    every threshold that is a number: at or above it exactly when not below. *)
Lemma nan_or_ordered (t : float) :
  (forall c : float,
     (t <? c)%float = false /\ (c <? t)%float = false /\
     (t <=? c)%float = false /\ (c <=? t)%float = false)
  \/ (forall c : float, Prim2SF c <> S754_nan ->
        (c <=? t)%float = negb (t <? c)%float /\
        (t <=? c)%float = negb (c <? t)%float).
Proof.
  destruct (Prim2SF t) eqn:Et; [right | right | left | right]; intros c.
  3: { rewrite !ltb_spec, !leb_spec, Et. unfold SFltb, SFleb.
       rewrite SFcompare_nan_r, SFcompare_nan_l. repeat split; reflexivity. }
  all: intros Hc; rewrite !ltb_spec, !leb_spec, Et;
    split; apply SFleb_negb_SFltb; apply SFcompare_some;
    solve [assumption | discriminate].
Qed.

(** The temperature check of the code flags the bands of the table. *)
Lemma temperature_check_bands (t : float) :
  negb ((t <? TEMP_CRITICAL_MIN)%float || (TEMP_CRITICAL_MAX <? t)%float)
  && ((t <? TEMP_MIN_NORMAL)%float || (TEMP_MAX_NORMAL <? t)%float)
  = temperature_warning_band t.
Proof.
  unfold temperature_warning_band, TEMP_CRITICAL_MIN, TEMP_CRITICAL_MAX,
    TEMP_MIN_NORMAL, TEMP_MAX_NORMAL.
  destruct (nan_or_ordered t) as [N | O].
  - destruct (N 35.0%float) as (-> & _ & _ & ->).
    destruct (N 40.0%float) as (_ & -> & -> & _).
    destruct (N 35.5%float) as (-> & _ & _ & _).
    destruct (N 38.5%float) as (_ & -> & _ & _).
    reflexivity.
  - destruct (O 35.0%float) as [-> _]; [vm_compute; discriminate |].
    destruct (O 40.0%float) as [_ ->]; [vm_compute; discriminate |].
    destruct (t <? 35.0)%float, (40.0 <? t)%float,
      (t <? 35.5)%float, (38.5 <? t)%float; reflexivity.
Qed.

Lemma spo2_check_bands (s : Z) :
  (s <? SPO2_MIN_CRITICAL) = spo2_critical_band s
  /\ negb (s <? SPO2_MIN_CRITICAL) && (s <? SPO2_MIN_NORMAL) = spo2_warning_band s
  /\ negb (s <? SPO2_MIN_CRITICAL) && negb (s <? SPO2_MIN_NORMAL) = spo2_normal_band s.
Proof.
  unfold spo2_critical_band, spo2_warning_band, spo2_normal_band,
    SPO2_MIN_CRITICAL, SPO2_MIN_NORMAL.
  destruct (Z.ltb_spec s 85), (Z.ltb_spec s 92), (Z.leb_spec 85 s),
    (Z.leb_spec s 91), (Z.leb_spec 92 s); cbn; repeat split; lia.
Qed.

Lemma heart_rate_check_bands (h : Z) :
  negb ((h <? HEART_RATE_CRITICAL_MIN) || (HEART_RATE_CRITICAL_MAX <? h))
  && ((h <? HEART_RATE_MIN) || (HEART_RATE_MAX <? h))
  = heart_rate_warning_band h.
Proof.
  unfold heart_rate_warning_band, HEART_RATE_CRITICAL_MIN,
    HEART_RATE_CRITICAL_MAX, HEART_RATE_MIN, HEART_RATE_MAX.
  destruct (Z.ltb_spec h 40), (Z.ltb_spec 150 h), (Z.ltb_spec h 45),
    (Z.ltb_spec 120 h), (Z.leb_spec 40 h), (Z.leb_spec h 150); cbn;
    reflexivity || lia.
Qed.

(** The counters of the code are the per-band flags of the table. *)
Lemma count_flags_bands (v : VitalSigns) :
  count_flags v = (spec_warning_flags v, spec_critical_flags v).
Proof.
  unfold count_flags, spec_warning_flags, spec_critical_flags.
  destruct (spo2_check_bands (spo2 v)) as (Hc & Hw & _).
  rewrite <- Hc, <- Hw, <- (heart_rate_check_bands (heart_rate v)),
    <- (temperature_check_bands (temperature v)).
  unfold heart_rate_critical_band, temperature_critical_band,
    HEART_RATE_CRITICAL_MIN, HEART_RATE_CRITICAL_MAX,
    TEMP_CRITICAL_MIN, TEMP_CRITICAL_MAX.
  destruct (spo2 v <? SPO2_MIN_CRITICAL), (spo2 v <? SPO2_MIN_NORMAL),
    ((heart_rate v <? 40) || (150 <? heart_rate v)),
    ((heart_rate v <? HEART_RATE_MIN) || (HEART_RATE_MAX <? heart_rate v)),
    ((temperature v <? 35.0)%float || (40.0 <? temperature v)%float),
    ((temperature v <? TEMP_MIN_NORMAL)%float
     || (TEMP_MAX_NORMAL <? temperature v)%float),
    (fall_detected v); reflexivity.
Qed.

(** C1. For every sample the counters of [analyze_health] hold one flag per
    signal in its warning band and one per signal in its critical band (the
    bands of the table: SpO2 critical below 85, warning 85 to 91, normal from
    92; heart rate critical below 40 or above 150, warning outside 45 to 120
    and inside 40 to 150; temperature critical below 35.0 or above 40.0,
    warning outside 35.5 to 38.5 and inside 35.0 to 40.0), plus one critical
    flag for a fall; no signal is in both of its bands; and the method
    returns Emergency if there is a critical flag or a fall, else Critical
    from two warning flags, else Warning from one, else Normal, leaving the
    object as it was. *)
Theorem analyze_health_decision_rule (self : MinerHealthMonitor) :
  let v := vitals self in
  count_flags v = (spec_warning_flags v, spec_critical_flags v)
  /\ spo2_critical_band (spo2 v) && spo2_warning_band (spo2 v) = false
  /\ heart_rate_critical_band (heart_rate v)
     && heart_rate_warning_band (heart_rate v) = false
  /\ temperature_critical_band (temperature v)
     && temperature_warning_band (temperature v) = false
  /\ spo2_normal_band (spo2 v)
     = negb (spo2_critical_band (spo2 v)) && negb (spo2_warning_band (spo2 v))
  /\ analyze_health self = (classify_spec v, self, []).
Proof.
  intros v. split; [apply count_flags_bands |].
  destruct (spo2_check_bands (spo2 v)) as (Hc & Hw & Hn).
  repeat split.
  - rewrite <- Hc, <- Hw. destruct (spo2 v <? SPO2_MIN_CRITICAL); reflexivity.
  - rewrite <- heart_rate_check_bands. unfold heart_rate_critical_band,
      HEART_RATE_CRITICAL_MIN, HEART_RATE_CRITICAL_MAX.
    destruct ((heart_rate v <? 40) || (150 <? heart_rate v)); reflexivity.
  - rewrite <- temperature_check_bands. unfold temperature_critical_band,
      TEMP_CRITICAL_MIN, TEMP_CRITICAL_MAX.
    destruct ((temperature v <? 35.0)%float || (40.0 <? temperature v)%float);
      reflexivity.
  - rewrite <- Hc, <- Hw, <- Hn.
    destruct (spo2 v <? SPO2_MIN_CRITICAL), (spo2 v <? SPO2_MIN_NORMAL);
      reflexivity.
  - unfold analyze_health, bind, read, ret, classify_spec, overall_status.
    cbn. fold v. rewrite count_flags_bands.
    assert (E : (0 <? spec_warning_flags v) = (1 <=? spec_warning_flags v)).
    { destruct (Z.ltb_spec 0 (spec_warning_flags v)),
        (Z.leb_spec 1 (spec_warning_flags v)); reflexivity || lia. }
    rewrite E. reflexivity.
Qed.

(** ** One iteration of the loop, by the status of its sample *)

Ltac step_cycle H :=
  unfold cycle, analyze_and_handle, analyze_health, bind, read, assign, ret;
  cbn;
  match type of H with
  | classify ?v = _ =>
      change (overall_status v (count_flags v)) with (classify v); rewrite H
  end;
  cbn.

Lemma cycle_normal (v : VitalSigns) (self : MinerHealthMonitor) :
  classify v = HealthStatus.NORMAL ->
  cycle v self =
    (tt,
     mkMonitor (power_down (current_state self)) HealthStatus.NORMAL v
       NORMAL_INTERVAL 0 false (measurement_count self + 1),
     []).
Proof.
  intros H. destruct self as [st hs vt mi ac es mc]. step_cycle H.
  destruct st; reflexivity.
Qed.

Lemma cycle_warning (v : VitalSigns) (self : MinerHealthMonitor) :
  classify v = HealthStatus.WARNING ->
  cycle v self =
    (tt,
     (if 2 <=? anomaly_count self + 1
      then mkMonitor SystemState.EXTENDED_MONITORING HealthStatus.WARNING v
             EXTENDED_INTERVAL (anomaly_count self + 1) (emergency_sent self)
             (measurement_count self + 1)
      else mkMonitor (power_down (current_state self)) HealthStatus.WARNING v
             (monitoring_interval self) (anomaly_count self + 1)
             (emergency_sent self) (measurement_count self + 1)),
     []).
Proof.
  intros H. destruct self as [st hs vt mi ac es mc]. step_cycle H.
  destruct (2 <=? ac + 1); cbn; [reflexivity |].
  destruct st; reflexivity.
Qed.

Lemma cycle_critical (v : VitalSigns) (self : MinerHealthMonitor) :
  classify v = HealthStatus.CRITICAL ->
  cycle v self =
    (tt,
     mkMonitor SystemState.EXTENDED_MONITORING HealthStatus.CRITICAL v
       EXTENDED_INTERVAL (anomaly_count self) (emergency_sent self)
       (measurement_count self + 1),
     [mkTransmission false v HealthStatus.CRITICAL]).
Proof.
  intros H. destruct self as [st hs vt mi ac es mc]. step_cycle H.
  reflexivity.
Qed.

Lemma cycle_emergency (v : VitalSigns) (self : MinerHealthMonitor) :
  classify v = HealthStatus.EMERGENCY ->
  cycle v self =
    (tt,
     mkMonitor SystemState.EMERGENCY HealthStatus.EMERGENCY v
       EMERGENCY_INTERVAL (anomaly_count self) true
       (measurement_count self + 1),
     if emergency_sent self then []
     else [mkTransmission true v HealthStatus.EMERGENCY]).
Proof.
  intros H. destruct self as [st hs vt mi ac es mc]. step_cycle H.
  destruct es; reflexivity.
Qed.

(** Iterations compose: the object is threaded, the transmissions appended. *)
Lemma cycles_cons (v : VitalSigns) (vs : list VitalSigns)
    (self : MinerHealthMonitor) :
  state_after (cycles (v :: vs)) self
    = state_after (cycles vs) (state_after (cycle v) self)
  /\ sent_by (cycles (v :: vs)) self
    = sent_by (cycle v) self ++ sent_by (cycles vs) (state_after (cycle v) self).
Proof.
  unfold state_after, sent_by. cbn [cycles]. unfold bind.
  destruct (cycle v self) as [[[] self1] out1]. cbn.
  destruct (cycles vs self1) as [[[] self2] out2]. split; reflexivity.
Qed.

Lemma cycles_snoc (vs : list VitalSigns) (v : VitalSigns)
    (self : MinerHealthMonitor) :
  state_after (cycles (vs ++ [v])) self
    = state_after (cycle v) (state_after (cycles vs) self).
Proof.
  revert self. induction vs as [| w vs IH]; intros self.
  - cbn [app]. destruct (cycles_cons v [] self) as [-> _]. reflexivity.
  - cbn [app]. destruct (cycles_cons w (vs ++ [v]) self) as [-> _].
    destruct (cycles_cons w vs self) as [-> _]. apply IH.
Qed.

Example classify_healthy : classify healthy = HealthStatus.NORMAL.
Proof. reflexivity. Qed.
Example classify_low_spo2 : classify low_spo2 = HealthStatus.WARNING.
Proof. reflexivity. Qed.
Example classify_low_spo2_high_rate :
  classify low_spo2_high_rate = HealthStatus.CRITICAL.
Proof. reflexivity. Qed.
Example classify_very_low_spo2 : classify very_low_spo2 = HealthStatus.EMERGENCY.
Proof. reflexivity. Qed.
Example classify_fallen : classify fallen = HealthStatus.EMERGENCY.
Proof. reflexivity. Qed.

(** A run on the code: Warning, Warning, fall, fall, Normal. *)
Example run_trace :
  cycles [low_spo2; low_spo2; fallen; fallen; healthy] init
  = (tt,
     mkMonitor SystemState.EMERGENCY HealthStatus.NORMAL healthy 35 0 false 5,
     [mkTransmission true fallen HealthStatus.EMERGENCY])
  /\ state_after (cycles [low_spo2; low_spo2]) init
     = mkMonitor SystemState.EXTENDED_MONITORING HealthStatus.WARNING low_spo2
         10 2 false 2.
Proof. split; reflexivity. Qed.

Lemma classify_cases (v : VitalSigns) :
  classify v = HealthStatus.NORMAL \/ classify v = HealthStatus.WARNING
  \/ classify v = HealthStatus.CRITICAL \/ classify v = HealthStatus.EMERGENCY.
Proof. destruct (classify v); auto. Qed.

Lemma power_down_idem (st : SystemState.t) :
  power_down (power_down st) = power_down st.
Proof. destruct st; reflexivity. Qed.

(** Between iterations the state is one the power-down check leaves alone:
    [SLEEP], [EXTENDED_MONITORING] or [EMERGENCY]. *)
Lemma reachable_power_down (self : MinerHealthMonitor) :
  reachable self -> power_down (current_state self) = current_state self.
Proof.
  induction 1 as [| self v _ IH]; [reflexivity |].
  unfold state_after.
  destruct (classify_cases v) as [H | [H | [H | H]]].
  - rewrite (cycle_normal v self H). cbn. apply power_down_idem.
  - rewrite (cycle_warning v self H).
    destruct (2 <=? anomaly_count self + 1); cbn;
      [reflexivity | apply power_down_idem].
  - rewrite (cycle_critical v self H). reflexivity.
  - rewrite (cycle_emergency v self H). reflexivity.
Qed.

(** ** The emergency latch *)

Lemma emergency_run_latched (vs : list VitalSigns) (self : MinerHealthMonitor) :
  Forall (fun x => classify x = HealthStatus.EMERGENCY) vs ->
  emergency_sent self = true ->
  sent_by (cycles vs) self = [].
Proof.
  intros Hvs. revert self. induction Hvs as [| v vs Hv _ IH]; intros self Hs.
  - reflexivity.
  - destruct (cycles_cons v vs self) as [_ ->].
    unfold sent_by at 1, state_after. rewrite (cycle_emergency v self Hv).
    cbn [fst snd]. rewrite Hs. cbn [app]. apply IH. reflexivity.
Qed.

Lemma latch_kept_without_normal (vs : list VitalSigns) (self : MinerHealthMonitor) :
  Forall (fun x => classify x <> HealthStatus.NORMAL) vs ->
  emergency_sent self = true ->
  emergency_sent (state_after (cycles vs) self) = true.
Proof.
  intros Hvs. revert self. induction Hvs as [| v vs Hv _ IH]; intros self Hs.
  - exact Hs.
  - destruct (cycles_cons v vs self) as [-> _]. apply IH.
    unfold state_after.
    destruct (classify_cases v) as [H | [H | [H | H]]].
    + contradiction.
    + rewrite (cycle_warning v self H).
      destruct (2 <=? anomaly_count self + 1); exact Hs.
    + rewrite (cycle_critical v self H). exact Hs.
    + rewrite (cycle_emergency v self H). reflexivity.
Qed.

(** C2, as stated, fails on the code: not every run of consecutive
    Emergency cycles transmits.  After a fall and a Warning cycle the latch
    is still set, so the Emergency cycle that follows, a run of its own,
    sends nothing; the three cycles together send one transmission. *)
Lemma emergency_run_after_warning_is_silent :
  map classify [fallen; low_spo2; fallen]
  = [HealthStatus.EMERGENCY; HealthStatus.WARNING; HealthStatus.EMERGENCY]
  /\ emergency_sent (state_after (cycles [fallen; low_spo2]) init) = true
  /\ length (filter is_emergency
               (sent_by (cycle fallen)
                  (state_after (cycles [fallen; low_spo2]) init)))
     <> 1%nat
  /\ sent_by (cycles [fallen; low_spo2; fallen]) init
     = [mkTransmission true fallen HealthStatus.EMERGENCY].
Proof.
  split; [reflexivity |]. split; [reflexivity |].
  split; [vm_compute; discriminate | reflexivity].
Qed.

(** C2, amended.  A cycle classified Emergency sets the interval to the
    Emergency value (5 s) and the state to Emergency, and transmits with
    [is_emergency = true] exactly when the latch [emergency_sent] is false,
    setting it.  So a run of consecutive Emergency cycles entered with the
    latch false transmits once, on its first cycle, and not on the later
    ones, and a run entered with the latch still set transmits nothing.
    The latch stays set through every cycle that is not classified Normal,
    and a Normal cycle clears it. *)
Theorem emergency_transmitted_once_per_episode :
  (forall (self : MinerHealthMonitor) (v : VitalSigns),
     classify v = HealthStatus.EMERGENCY ->
     monitoring_interval (state_after (cycle v) self) = 5
     /\ current_state (state_after (cycle v) self) = SystemState.EMERGENCY
     /\ emergency_sent (state_after (cycle v) self) = true
     /\ sent_by (cycle v) self =
          (if emergency_sent self then []
           else [mkTransmission true v HealthStatus.EMERGENCY]))
  /\ (forall (self : MinerHealthMonitor) (v : VitalSigns) (vs : list VitalSigns),
        Forall (fun x => classify x = HealthStatus.EMERGENCY) (v :: vs) ->
        emergency_sent self = false ->
        sent_by (cycle v) self = [mkTransmission true v HealthStatus.EMERGENCY]
        /\ sent_by (cycles vs) (state_after (cycle v) self) = []
        /\ sent_by (cycles (v :: vs)) self
           = [mkTransmission true v HealthStatus.EMERGENCY])
  /\ (forall (self : MinerHealthMonitor) (vs : list VitalSigns),
        Forall (fun x => classify x <> HealthStatus.NORMAL) vs ->
        emergency_sent self = true ->
        emergency_sent (state_after (cycles vs) self) = true)
  /\ (forall (self : MinerHealthMonitor) (v : VitalSigns),
        classify v = HealthStatus.NORMAL ->
        emergency_sent (state_after (cycle v) self) = false)
  /\ (forall (self : MinerHealthMonitor) (vs : list VitalSigns),
        Forall (fun x => classify x = HealthStatus.EMERGENCY) vs ->
        emergency_sent self = true ->
        sent_by (cycles vs) self = []).
Proof.
  split; [| split; [| split; [| split]]].
  - intros self v H. unfold state_after, sent_by.
    rewrite (cycle_emergency v self H). repeat split.
  - intros self v vs Hall Hs.
    pose proof (Forall_inv Hall) as Hv. cbn beta in Hv.
    pose proof (Forall_inv_tail Hall) as Hvs.
    assert (H1 : sent_by (cycle v) self
                 = [mkTransmission true v HealthStatus.EMERGENCY]).
    { unfold sent_by. rewrite (cycle_emergency v self Hv), Hs. reflexivity. }
    assert (H2 : sent_by (cycles vs) (state_after (cycle v) self) = []).
    { apply emergency_run_latched; [exact Hvs |].
      unfold state_after. rewrite (cycle_emergency v self Hv). reflexivity. }
    repeat split; [exact H1 | exact H2 |].
    destruct (cycles_cons v vs self) as [_ ->]. rewrite H1, H2. reflexivity.
  - intros self vs. apply latch_kept_without_normal.
  - intros self v H. unfold state_after. rewrite (cycle_normal v self H).
    reflexivity.
  - intros self vs. apply emergency_run_latched.
Qed.

(** Three Emergency cycles from [init]: one transmission, for the first. *)
Lemma emergency_transmitted_once_per_episode_witness :
  Forall (fun x => classify x = HealthStatus.EMERGENCY)
    [fallen; very_low_spo2; fallen]
  /\ emergency_sent init = false
  /\ sent_by (cycles [fallen; very_low_spo2; fallen]) init
     = [mkTransmission true fallen HealthStatus.EMERGENCY].
Proof.
  assert (H : Forall (fun x => classify x = HealthStatus.EMERGENCY)
                [fallen; very_low_spo2; fallen])
    by (repeat constructor).
  split; [exact H |]. split; [reflexivity |].
  exact (proj2 (proj2 (proj1 (proj2 emergency_transmitted_once_per_episode)
                         init fallen [very_low_spo2; fallen] H eq_refl))).
Defined.

(** ** Critical cycles *)

(** C3. Every cycle classified Critical transmits, with
    [is_emergency = false], whatever the latch [emergency_sent] holds, and
    sets the interval to the Extended value (10 s) and the state to
    ExtendedMonitoring; consecutive Critical cycles transmit once each. *)
Theorem critical_always_transmits :
  (forall (self : MinerHealthMonitor) (v : VitalSigns),
     classify v = HealthStatus.CRITICAL ->
     sent_by (cycle v) self = [mkTransmission false v HealthStatus.CRITICAL]
     /\ monitoring_interval (state_after (cycle v) self) = 10
     /\ current_state (state_after (cycle v) self)
        = SystemState.EXTENDED_MONITORING
     /\ emergency_sent (state_after (cycle v) self) = emergency_sent self)
  /\ (forall (self : MinerHealthMonitor) (vs : list VitalSigns),
        Forall (fun x => classify x = HealthStatus.CRITICAL) vs ->
        sent_by (cycles vs) self
        = map (fun v => mkTransmission false v HealthStatus.CRITICAL) vs).
Proof.
  split.
  - intros self v H. unfold state_after, sent_by.
    rewrite (cycle_critical v self H). repeat split.
  - intros self vs Hvs. revert self.
    induction Hvs as [| v vs Hv _ IH]; intros self; [reflexivity |].
    destruct (cycles_cons v vs self) as [_ ->]. rewrite IH.
    unfold sent_by. rewrite (cycle_critical v self Hv). reflexivity.
Qed.

(** Two Critical cycles with the latch set by a fall: two transmissions. *)
Lemma critical_always_transmits_witness :
  Forall (fun x => classify x = HealthStatus.CRITICAL)
    [low_spo2_high_rate; low_spo2_high_rate]
  /\ sent_by (cycles [low_spo2_high_rate; low_spo2_high_rate])
       (state_after (cycle fallen) init)
     = [mkTransmission false low_spo2_high_rate HealthStatus.CRITICAL;
        mkTransmission false low_spo2_high_rate HealthStatus.CRITICAL].
Proof.
  assert (H : Forall (fun x => classify x = HealthStatus.CRITICAL)
                [low_spo2_high_rate; low_spo2_high_rate])
    by (repeat constructor).
  split; [exact H |].
  exact (proj2 critical_always_transmits (state_after (cycle fallen) init)
           [low_spo2_high_rate; low_spo2_high_rate] H).
Defined.

(** ** Warning cycles *)

(** C4. A cycle classified Warning increments [anomaly_count]; when the
    count it reaches is at least 2 it sets the interval to the Extended
    value (10 s) and the state to ExtendedMonitoring, otherwise the
    interval and the state stay as they were.  From a count of 0, one
    Warning cycle changes neither and the second one escalates.  The cycles
    are those of a run (objects reachable from [init]); the last part is
    the Warning branch of [handle_health_status] itself, on any object. *)
Theorem warning_escalates_on_second :
  (forall (self : MinerHealthMonitor) (v : VitalSigns),
     reachable self ->
     classify v = HealthStatus.WARNING ->
     anomaly_count (state_after (cycle v) self) = anomaly_count self + 1
     /\ (2 <= anomaly_count (state_after (cycle v) self) ->
         monitoring_interval (state_after (cycle v) self) = 10
         /\ current_state (state_after (cycle v) self)
            = SystemState.EXTENDED_MONITORING)
     /\ (anomaly_count (state_after (cycle v) self) < 2 ->
         monitoring_interval (state_after (cycle v) self)
         = monitoring_interval self
         /\ current_state (state_after (cycle v) self) = current_state self))
  /\ (forall (self : MinerHealthMonitor) (v1 v2 : VitalSigns),
        reachable self ->
        anomaly_count self = 0 ->
        classify v1 = HealthStatus.WARNING ->
        classify v2 = HealthStatus.WARNING ->
        (monitoring_interval (state_after (cycle v1) self)
         = monitoring_interval self
         /\ current_state (state_after (cycle v1) self) = current_state self)
        /\ (monitoring_interval (state_after (cycles [v1; v2]) self) = 10
            /\ current_state (state_after (cycles [v1; v2]) self)
               = SystemState.EXTENDED_MONITORING))
  /\ (forall self : MinerHealthMonitor,
        state_after (handle_health_status HealthStatus.WARNING) self
        = if 2 <=? anomaly_count self + 1
          then set_current_state SystemState.EXTENDED_MONITORING
                 (set_monitoring_interval EXTENDED_INTERVAL
                    (set_anomaly_count (anomaly_count self + 1) self))
          else set_anomaly_count (anomaly_count self + 1) self).
Proof.
  assert (One : forall self v, reachable self ->
            classify v = HealthStatus.WARNING ->
            anomaly_count (state_after (cycle v) self) = anomaly_count self + 1
            /\ (2 <= anomaly_count (state_after (cycle v) self) ->
                monitoring_interval (state_after (cycle v) self) = 10
                /\ current_state (state_after (cycle v) self)
                   = SystemState.EXTENDED_MONITORING)
            /\ (anomaly_count (state_after (cycle v) self) < 2 ->
                monitoring_interval (state_after (cycle v) self)
                = monitoring_interval self
                /\ current_state (state_after (cycle v) self)
                   = current_state self)).
  { intros self v R H. unfold state_after. rewrite (cycle_warning v self H).
    cbn [fst snd].
    destruct (Z.leb_spec 2 (anomaly_count self + 1)) as [L | L]; cbn.
    - repeat split; intros; lia.
    - repeat split; intros; try lia. apply reachable_power_down. exact R. }
  split; [exact One |]. split.
  - intros self v1 v2 R H0 H1 H2.
    destruct (One self v1 R H1) as (C1 & _ & Keep).
    split; [apply Keep; lia |].
    destruct (cycles_cons v1 [v2] self) as [-> _].
    destruct (cycles_cons v2 [] (state_after (cycle v1) self)) as [-> _].
    destruct (One (state_after (cycle v1) self) v2
                (reachable_cycle self v1 R) H2) as (C2 & Esc & _).
    apply Esc. lia.
  - intros self. destruct self as [st hs vt mi ac es mc].
    unfold state_after, handle_health_status, bind, read, assign, when.
    cbn. destruct (2 <=? ac + 1); reflexivity.
Qed.

(** Two Warning cycles from [init]. *)
Lemma warning_escalates_on_second_witness :
  reachable init
  /\ anomaly_count init = 0
  /\ classify low_spo2 = HealthStatus.WARNING
  /\ (monitoring_interval (state_after (cycle low_spo2) init)
      = monitoring_interval init
      /\ current_state (state_after (cycle low_spo2) init) = current_state init)
  /\ (monitoring_interval (state_after (cycles [low_spo2; low_spo2]) init) = 10
      /\ current_state (state_after (cycles [low_spo2; low_spo2]) init)
         = SystemState.EXTENDED_MONITORING).
Proof.
  split; [exact reachable_init |]. split; [reflexivity |].
  split; [reflexivity |].
  exact (proj1 (proj2 warning_escalates_on_second) init low_spo2 low_spo2
           reachable_init eq_refl eq_refl eq_refl).
Defined.

(** ** Normal cycles *)

(** What a cycle classified Normal does, from any object: the interval is
    the Normal value, the count 0, the latch clear; the state is what the
    power-down check makes of the state the cycle started in, since
    [handle_health_status] does not assign it on this branch. *)
Lemma normal_cycle_resets (self : MinerHealthMonitor) (v : VitalSigns) :
  classify v = HealthStatus.NORMAL ->
  anomaly_count (state_after (cycle v) self) = 0
  /\ emergency_sent (state_after (cycle v) self) = false
  /\ monitoring_interval (state_after (cycle v) self) = 35
  /\ current_state (state_after (cycle v) self)
     = power_down (current_state self)
  /\ sent_by (cycle v) self = [].
Proof.
  intros H. unfold state_after, sent_by. rewrite (cycle_normal v self H).
  repeat split.
Qed.

(** C5, run on the code.  After a fall the state is Emergency; the Normal
    cycle that follows resets the count, the latch and the interval (35 s)
    but leaves the state at Emergency, and so does every later Normal
    cycle.  The same holds from ExtendedMonitoring.  The state goes back to
    Sleep only when the cycle started in a state other than these two. *)
Theorem normal_cycle_does_not_leave_emergency :
  (let self := state_after (cycles [fallen; healthy]) init in
   classify healthy = HealthStatus.NORMAL
   /\ current_state (state_after (cycle fallen) init) = SystemState.EMERGENCY
   /\ current_state self = SystemState.EMERGENCY
   /\ monitoring_interval self = 35
   /\ anomaly_count self = 0
   /\ emergency_sent self = false
   /\ current_state (state_after (cycles [fallen; healthy; healthy; healthy]) init)
      = SystemState.EMERGENCY)
  /\ (let self := state_after (cycles [low_spo2_high_rate; healthy]) init in
      current_state self = SystemState.EXTENDED_MONITORING
      /\ monitoring_interval self = 35)
  /\ current_state (state_after (cycles [healthy]) init) = SystemState.SLEEP.
Proof.
  cbv zeta. repeat split; vm_compute; reflexivity.
Qed.

(** ** The anomaly counter *)

Lemma since_last_normal_snoc (history : list HealthStatus.t)
    (s : HealthStatus.t) :
  since_last_normal (history ++ [s])
  = if is_normal s then [] else since_last_normal history ++ [s].
Proof.
  unfold since_last_normal. rewrite rev_unit. cbn [take_while].
  destruct (is_normal s); reflexivity.
Qed.

Lemma warnings_since_normal_snoc (history : list HealthStatus.t)
    (s : HealthStatus.t) :
  warnings_since_normal (history ++ [s])
  = match s with
    | HealthStatus.NORMAL => 0
    | HealthStatus.WARNING => warnings_since_normal history + 1
    | _ => warnings_since_normal history
    end.
Proof.
  unfold warnings_since_normal. rewrite since_last_normal_snoc.
  destruct s; cbn [is_normal HealthStatus.eqb]; try reflexivity;
    rewrite filter_app, length_app; cbn; lia.
Qed.

(** C6, as stated, fails on the code: after one Critical cycle the streak
    of Warning-or-worse cycles is 1 and [anomaly_count] is 0. *)
Lemma anomaly_count_is_not_the_streak :
  anomaly_count (state_after (cycles [low_spo2_high_rate]) init)
  <> anomalous_streak (map classify [low_spo2_high_rate]).
Proof. vm_compute. discriminate. Qed.

(** C6, amended.  At every point of a run [anomaly_count] is the number of
    cycles classified Warning since the last cycle classified Normal (or
    since the start): a Warning cycle adds one, a Critical or Emergency
    cycle leaves the count as it is, and a Normal cycle resets it to 0. *)
Theorem anomaly_count_counts_warnings :
  (forall vs : list VitalSigns,
     anomaly_count (state_after (cycles vs) init)
     = warnings_since_normal (map classify vs))
  /\ (forall (self : MinerHealthMonitor) (v : VitalSigns),
        anomaly_count (state_after (cycle v) self)
        = match classify v with
          | HealthStatus.NORMAL => 0
          | HealthStatus.WARNING => anomaly_count self + 1
          | HealthStatus.CRITICAL | HealthStatus.EMERGENCY => anomaly_count self
          end).
Proof.
  assert (Step : forall self v,
            anomaly_count (state_after (cycle v) self)
            = match classify v with
              | HealthStatus.NORMAL => 0
              | HealthStatus.WARNING => anomaly_count self + 1
              | _ => anomaly_count self
              end).
  { intros self v. unfold state_after.
    destruct (classify v) eqn:H.
    - rewrite (cycle_normal v self H). reflexivity.
    - rewrite (cycle_warning v self H).
      destruct (2 <=? anomaly_count self + 1); reflexivity.
    - rewrite (cycle_critical v self H). reflexivity.
    - rewrite (cycle_emergency v self H). reflexivity. }
  split; [| exact Step].
  induction vs as [| v vs IH] using rev_ind; [reflexivity |].
  rewrite cycles_snoc, Step, IH, map_app. cbn [map].
  rewrite warnings_since_normal_snoc. reflexivity.
Qed.

(** ** The monitoring interval *)

Lemma handle_health_status_interval (status : HealthStatus.t)
    (self : MinerHealthMonitor) :
  fixed_interval
    (monitoring_interval (state_after (handle_health_status status) self))
  \/ monitoring_interval (state_after (handle_health_status status) self)
     = monitoring_interval self.
Proof.
  destruct self as [st hs vt mi ac es mc].
  unfold fixed_interval, state_after.
  destruct status; cbn.
  - left; left; reflexivity.
  - destruct (2 <=? ac + 1); cbn; [left; right; left | right]; reflexivity.
  - left; right; left; reflexivity.
  - left; right; right.
    unfold handle_health_status, bind, read, assign, when. cbn.
    destruct es; reflexivity.
Qed.

Lemma cycle_interval (v : VitalSigns) (self : MinerHealthMonitor) :
  fixed_interval (monitoring_interval (state_after (cycle v) self))
  \/ monitoring_interval (state_after (cycle v) self)
     = monitoring_interval self.
Proof.
  unfold state_after, fixed_interval.
  destruct (classify v) eqn:H.
  - rewrite (cycle_normal v self H). left; left; reflexivity.
  - rewrite (cycle_warning v self H).
    destruct (2 <=? anomaly_count self + 1);
      [left; right; left | right]; reflexivity.
  - rewrite (cycle_critical v self H). left; right; left; reflexivity.
  - rewrite (cycle_emergency v self H). left; right; right; reflexivity.
Qed.

(** C8. The three interval constants are 35, 10 and 5; the interval is 35
    at initialisation; [handle_health_status], and the whole cycle, assign
    one of the three values or leave the interval as it is; so after every
    sequence of cycles the interval is one of 35, 10 and 5. *)
Theorem interval_always_fixed :
  (NORMAL_INTERVAL = 35 /\ EXTENDED_INTERVAL = 10 /\ EMERGENCY_INTERVAL = 5)
  /\ monitoring_interval init = 35
  /\ (forall (status : HealthStatus.t) (self : MinerHealthMonitor),
        fixed_interval
          (monitoring_interval (state_after (handle_health_status status) self))
        \/ monitoring_interval (state_after (handle_health_status status) self)
           = monitoring_interval self)
  /\ (forall (v : VitalSigns) (self : MinerHealthMonitor),
        fixed_interval (monitoring_interval (state_after (cycle v) self))
        \/ monitoring_interval (state_after (cycle v) self)
           = monitoring_interval self)
  /\ (forall vs : list VitalSigns,
        In (monitoring_interval (state_after (cycles vs) init)) [35; 10; 5]).
Proof.
  split; [repeat split |]. split; [reflexivity |].
  split; [exact handle_health_status_interval |].
  split; [exact cycle_interval |].
  intros vs.
  assert (F : fixed_interval (monitoring_interval (state_after (cycles vs) init))).
  { induction vs as [| v vs IH] using rev_ind.
    - left; reflexivity.
    - rewrite cycles_snoc.
      destruct (cycle_interval v (state_after (cycles vs) init)) as [H | H];
        [exact H | rewrite H; exact IH]. }
  destruct F as [-> | [-> | ->]]; cbn; auto.
Qed.

(** ** The classifier is a function of the sample *)

(** C9. [analyze_health] returns a status that depends on the sample in
    [self.vitals] alone: two objects holding equal samples get the same
    status, whatever the rest of their state.  The call assigns nothing and
    transmits nothing, and calling it twice in a row returns the same status
    twice. *)
Theorem analyze_health_pure :
  (forall self1 self2 : MinerHealthMonitor,
     vitals self1 = vitals self2 ->
     result_of analyze_health self1 = result_of analyze_health self2)
  /\ (forall self : MinerHealthMonitor,
        state_after analyze_health self = self
        /\ sent_by analyze_health self = [])
  /\ (forall self : MinerHealthMonitor,
        (s1 <- analyze_health ;; s2 <- analyze_health ;; ret (s1, s2)) self
        = ((classify (vitals self), classify (vitals self)), self, [])).
Proof.
  split; [| split].
  - intros self1 self2 H.
    unfold result_of, analyze_health, bind, read, ret. cbn. rewrite H.
    reflexivity.
  - intros self. split; reflexivity.
  - intros self. reflexivity.
Qed.

(** The same sample in two objects that differ in every other field. *)
Lemma analyze_health_pure_witness :
  vitals (state_after (cycles [fallen; low_spo2]) init) = vitals (set_vitals low_spo2 init)
  /\ result_of analyze_health (state_after (cycles [fallen; low_spo2]) init)
     = result_of analyze_health (set_vitals low_spo2 init).
Proof.
  split; [reflexivity |].
  exact (proj1 analyze_health_pure
           (state_after (cycles [fallen; low_spo2]) init)
           (set_vitals low_spo2 init) eq_refl).
Defined.

(** ** The two classifiers *)

(** C10. On a sample without a fall the classifier of the simulation and
    the classifier of the dashboard, given the sample's heart rate, SpO2
    and temperature, return the same status. *)
Theorem dashboard_agrees_without_fall (self : MinerHealthMonitor) :
  fall_detected (vitals self) = false ->
  result_of analyze_health self
  = Dashboard.analyze_health (heart_rate (vitals self)) (spo2 (vitals self))
      (temperature (vitals self)).
Proof.
  intros H.
  unfold result_of, analyze_health, bind, read, ret. cbn [fst snd].
  unfold overall_status, count_flags, Dashboard.analyze_health.
  rewrite H.
  change Dashboard.SPO2_MIN_CRITICAL with SPO2_MIN_CRITICAL.
  change Dashboard.SPO2_MIN_NORMAL with SPO2_MIN_NORMAL.
  change Dashboard.HEART_RATE_MIN with HEART_RATE_MIN.
  change Dashboard.HEART_RATE_MAX with HEART_RATE_MAX.
  change Dashboard.TEMP_MIN_NORMAL with TEMP_MIN_NORMAL.
  change Dashboard.TEMP_MAX_NORMAL with TEMP_MAX_NORMAL.
  change HEART_RATE_CRITICAL_MIN with 40.
  change HEART_RATE_CRITICAL_MAX with 150.
  change TEMP_CRITICAL_MIN with 35.0%float.
  change TEMP_CRITICAL_MAX with 40.0%float.
  destruct (spo2 (vitals self) <? SPO2_MIN_CRITICAL),
    (spo2 (vitals self) <? SPO2_MIN_NORMAL),
    ((heart_rate (vitals self) <? 40) || (150 <? heart_rate (vitals self))),
    ((heart_rate (vitals self) <? HEART_RATE_MIN)
     || (HEART_RATE_MAX <? heart_rate (vitals self))),
    ((temperature (vitals self) <? 35.0)%float
     || (40.0 <? temperature (vitals self))%float),
    ((temperature (vitals self) <? TEMP_MIN_NORMAL)%float
     || (TEMP_MAX_NORMAL <? temperature (vitals self))%float);
    reflexivity.
Qed.

(** A sample with two warnings and no fall. *)
Lemma dashboard_agrees_without_fall_witness :
  fall_detected (vitals (set_vitals low_spo2_high_rate init)) = false
  /\ result_of analyze_health (set_vitals low_spo2_high_rate init)
     = Dashboard.analyze_health 130 90 36.8%float.
Proof.
  split; [reflexivity |].
  exact (dashboard_agrees_without_fall (set_vitals low_spo2_high_rate init)
           eq_refl).
Defined.

(** ** The sensor step *)

(** Every call of [simulate_sensor_readings] counts the measurement and
    leaves a sample in [self.vitals]: an iteration of [run] is a [cycle]. *)
Lemma monitoring_cycle_is_cycle (d : Draws) (self : MinerHealthMonitor) :
  monitoring_cycle d self
  = cycle (simulated_sample d (measurement_count self + 1)) self.
Proof.
  destruct self as [st hs vt mi ac es mc].
  unfold monitoring_cycle, cycle, simulate_sensor_readings, bind, read, assign.
  cbn -[analyze_and_handle].
  destruct (analyze_and_handle _) as [[[] self'] out]. reflexivity.
Qed.

(** The cadence of the injected anomalies, on draws inside the ranges. *)
Example simulated_cadence :
  classify (simulated_sample usual_draws 1) = HealthStatus.NORMAL
  /\ classify (simulated_sample usual_draws 8) = HealthStatus.WARNING
  /\ classify (simulated_sample usual_draws 12) = HealthStatus.WARNING
  /\ classify (simulated_sample usual_draws 24) = HealthStatus.CRITICAL
  /\ classify (simulated_sample usual_draws 15) = HealthStatus.EMERGENCY
  /\ fall_detected (simulated_sample usual_draws 15) = true
  /\ spo2 (simulated_sample usual_draws 8) = 89
  /\ heart_rate (simulated_sample usual_draws 12) = 128.
Proof. repeat split. Qed.

(** * Further properties of the code *)

(** ** The order of binary64 values *)

Lemma SFltb_trans (x y z : spec_float) :
  SFltb x y = true -> SFltb y z = true -> SFltb x z = true.
Proof.
  unfold SFltb.
  destruct x as [sx | sx | | sx mx ex], y as [sy | sy | | sy my ey],
    z as [sz | sz | | sz mz ez]; cbn;
    try discriminate; try reflexivity;
    try (destruct sx; discriminate || reflexivity);
    try (destruct sx, sy; discriminate || reflexivity);
    try (destruct sx, sz; discriminate || reflexivity);
    try (destruct sy, sz; discriminate || reflexivity);
    try (destruct sx, sy, sz; discriminate || reflexivity).
  all: destruct sx, sy, sz; cbn; try discriminate; try reflexivity.
  all: repeat match goal with
    | |- context [PosDef.Pos.compare_cont Eq ?p ?q] =>
        change (PosDef.Pos.compare_cont Eq p q) with (Pos.compare p q)
    end.
  all: destruct (Z.compare_spec ex ey), (Z.compare_spec ey ez),
        (Z.compare_spec ex ez); try discriminate; try reflexivity; try lia.
  all: subst.
  all: destruct (Pos.compare_spec mx my), (Pos.compare_spec my mz),
        (Pos.compare_spec mx mz); cbn; try discriminate; try reflexivity; lia.
Qed.

Lemma ltb_trans (x y z : float) :
  (x <? y)%float = true -> (y <? z)%float = true -> (x <? z)%float = true.
Proof. rewrite !ltb_spec. apply SFltb_trans. Qed.

Lemma leb_not_ltb (a t : float) :
  (a <=? t)%float = true -> (t <? a)%float = false.
Proof.
  rewrite ltb_spec, leb_spec. unfold SFleb, SFltb.
  rewrite (SFcompare_antisym (Prim2SF a) (Prim2SF t)).
  destruct (SFcompare (Prim2SF a) (Prim2SF t)) as [[ | | ] | ]; cbn;
    congruence.
Qed.

(** A value at or above [a] is not below a threshold under [a]; a value at
    or below [a] is not above a threshold over [a]. *)
Lemma not_below (b a t : float) :
  (b <? a)%float = true -> (a <=? t)%float = true -> (t <? b)%float = false.
Proof.
  intros Hba Hat. destruct (t <? b)%float eqn:E; [| reflexivity].
  rewrite <- (leb_not_ltb a t Hat). symmetry. exact (ltb_trans t b a E Hba).
Qed.

Lemma not_above (a b t : float) :
  (a <? b)%float = true -> (t <=? a)%float = true -> (b <? t)%float = false.
Proof.
  intros Hab Hta. destruct (b <? t)%float eqn:E; [| reflexivity].
  rewrite <- (leb_not_ltb t a Hta). symmetry. exact (ltb_trans a b t Hab E).
Qed.

Lemma SFeqb_refl (x : spec_float) : x <> S754_nan -> SFeqb x x = true.
Proof.
  unfold SFeqb. destruct x as [s | s | | s m e]; cbn; try reflexivity.
  - destruct s; reflexivity.
  - congruence.
  - intros _. rewrite Z.compare_refl.
    change (PosDef.Pos.compare_cont Eq m m) with (Pos.compare m m).
    rewrite Pos.compare_refl. destruct s; reflexivity.
Qed.

(** NaN fails every comparison. *)
Lemma nan_compares_false (t c : float) :
  is_nan t = true -> (t <? c)%float = false /\ (c <? t)%float = false.
Proof.
  unfold is_nan. rewrite eqb_spec, !ltb_spec. intros H.
  assert (N : Prim2SF t = S754_nan).
  { destruct (Prim2SF t) eqn:E; try reflexivity;
      rewrite SFeqb_refl in H by discriminate; discriminate. }
  rewrite N. unfold SFltb. rewrite SFcompare_nan_l, SFcompare_nan_r.
  split; reflexivity.
Qed.

(** The temperature checks: a value that is not outside the normal band is
    not outside the critical bounds either. *)
Lemma temperature_normal_not_critical (t : float) :
  (t <? TEMP_MIN_NORMAL)%float = false ->
  (TEMP_MAX_NORMAL <? t)%float = false ->
  (t <? TEMP_CRITICAL_MIN)%float = false
  /\ (TEMP_CRITICAL_MAX <? t)%float = false.
Proof.
  intros Hlo Hhi. split.
  - destruct (t <? TEMP_CRITICAL_MIN)%float eqn:E; [| reflexivity].
    rewrite <- Hlo. symmetry.
    apply (ltb_trans t TEMP_CRITICAL_MIN TEMP_MIN_NORMAL E). reflexivity.
  - destruct (TEMP_CRITICAL_MAX <? t)%float eqn:E; [| reflexivity].
    rewrite <- Hhi. symmetry.
    apply (ltb_trans TEMP_MAX_NORMAL TEMP_CRITICAL_MAX t); [reflexivity | exact E].
Qed.

(** ** When the classifier says Normal, and when Emergency *)

(** The classification as a function of the seven tests of the code. *)
Lemma classify_by_tests (v : VitalSigns) :
  classify v =
  let crit :=
    (spo2 v <? SPO2_MIN_CRITICAL)
    || ((heart_rate v <? HEART_RATE_CRITICAL_MIN)
        || (HEART_RATE_CRITICAL_MAX <? heart_rate v))
    || ((temperature v <? TEMP_CRITICAL_MIN)%float
        || (TEMP_CRITICAL_MAX <? temperature v)%float)
    || fall_detected v in
  let ws := negb (spo2 v <? SPO2_MIN_CRITICAL) && (spo2 v <? SPO2_MIN_NORMAL) in
  let wh :=
    negb ((heart_rate v <? HEART_RATE_CRITICAL_MIN)
          || (HEART_RATE_CRITICAL_MAX <? heart_rate v))
    && ((heart_rate v <? HEART_RATE_MIN) || (HEART_RATE_MAX <? heart_rate v)) in
  let wt :=
    negb ((temperature v <? TEMP_CRITICAL_MIN)%float
          || (TEMP_CRITICAL_MAX <? temperature v)%float)
    && ((temperature v <? TEMP_MIN_NORMAL)%float
        || (TEMP_MAX_NORMAL <? temperature v)%float) in
  if crit then HealthStatus.EMERGENCY
  else if (ws && wh) || (ws && wt) || (wh && wt) then HealthStatus.CRITICAL
  else if ws || wh || wt then HealthStatus.WARNING
  else HealthStatus.NORMAL.
Proof.
  unfold classify, overall_status, count_flags.
  destruct (spo2 v <? SPO2_MIN_CRITICAL), (spo2 v <? SPO2_MIN_NORMAL),
    ((heart_rate v <? HEART_RATE_CRITICAL_MIN)
     || (HEART_RATE_CRITICAL_MAX <? heart_rate v)),
    ((heart_rate v <? HEART_RATE_MIN) || (HEART_RATE_MAX <? heart_rate v)),
    ((temperature v <? TEMP_CRITICAL_MIN)%float
     || (TEMP_CRITICAL_MAX <? temperature v)%float),
    ((temperature v <? TEMP_MIN_NORMAL)%float
     || (TEMP_MAX_NORMAL <? temperature v)%float),
    (fall_detected v); reflexivity.
Qed.

(** X1. The classifier returns Normal exactly for the samples with SpO2 of
    at least 92, heart rate from 45 to 120, temperature neither below 35.5
    nor above 38.5, and no fall; it returns Emergency exactly for the
    samples with a fall or with one signal beyond its critical bound,
    whatever the other signals are. *)
Theorem classify_normal_emergency_iff (v : VitalSigns) :
  (classify v = HealthStatus.NORMAL <->
     92 <= spo2 v /\ 45 <= heart_rate v <= 120
     /\ (temperature v <? 35.5)%float = false
     /\ (38.5 <? temperature v)%float = false
     /\ fall_detected v = false)
  /\ (classify v = HealthStatus.EMERGENCY <->
        spo2 v < 85 \/ heart_rate v < 40 \/ 150 < heart_rate v
        \/ (temperature v <? 35.0)%float = true
        \/ (40.0 <? temperature v)%float = true
        \/ fall_detected v = true).
Proof.
  rewrite classify_by_tests. cbv zeta.
  change TEMP_MIN_NORMAL with 35.5%float in *.
  change TEMP_MAX_NORMAL with 38.5%float in *.
  change TEMP_CRITICAL_MIN with 35.0%float in *.
  change TEMP_CRITICAL_MAX with 40.0%float in *.
  unfold SPO2_MIN_CRITICAL, SPO2_MIN_NORMAL, HEART_RATE_CRITICAL_MIN,
    HEART_RATE_CRITICAL_MAX, HEART_RATE_MIN, HEART_RATE_MAX.
  pose proof (temperature_normal_not_critical (temperature v)) as TN.
  change TEMP_MIN_NORMAL with 35.5%float in TN.
  change TEMP_MAX_NORMAL with 38.5%float in TN.
  change TEMP_CRITICAL_MIN with 35.0%float in TN.
  change TEMP_CRITICAL_MAX with 40.0%float in TN.
  split.
  - split.
    + intros H.
      destruct (spo2 v <? 85) eqn:S1; [discriminate |].
      destruct (heart_rate v <? 40) eqn:H1; [discriminate |].
      destruct (150 <? heart_rate v) eqn:H2; [discriminate |].
      destruct (temperature v <? 35.0)%float eqn:T1; [discriminate |].
      destruct (40.0 <? temperature v)%float eqn:T2; [discriminate |].
      destruct (fall_detected v) eqn:F; [discriminate |].
      destruct (spo2 v <? 92) eqn:S2;
        [cbn in H;
         destruct ((heart_rate v <? 45) || (120 <? heart_rate v)),
           ((temperature v <? 35.5)%float || (38.5 <? temperature v)%float);
         discriminate |].
      destruct (heart_rate v <? 45) eqn:H3;
        [cbn in H;
         destruct ((temperature v <? 35.5)%float || (38.5 <? temperature v)%float);
         discriminate |].
      destruct (120 <? heart_rate v) eqn:H4;
        [cbn in H;
         destruct ((temperature v <? 35.5)%float || (38.5 <? temperature v)%float);
         discriminate |].
      destruct (temperature v <? 35.5)%float eqn:T3; [discriminate |].
      destruct (38.5 <? temperature v)%float eqn:T4; [discriminate |].
      apply Z.ltb_ge in S2, H3, H4. repeat split; lia || reflexivity.
    + intros (S & [H1 H2] & T1 & T2 & F).
      destruct (TN T1 T2) as [T3 T4]. rewrite T1, T2, T3, T4, F.
      rewrite (proj2 (Z.ltb_ge (spo2 v) 85)) by lia.
      rewrite (proj2 (Z.ltb_ge (spo2 v) 92)) by lia.
      rewrite (proj2 (Z.ltb_ge (heart_rate v) 40)) by lia.
      rewrite (proj2 (Z.ltb_ge 150 (heart_rate v))) by lia.
      rewrite (proj2 (Z.ltb_ge (heart_rate v) 45)) by lia.
      rewrite (proj2 (Z.ltb_ge 120 (heart_rate v))) by lia.
      reflexivity.
  - split.
    + intros H.
      destruct (Z.ltb_spec (spo2 v) 85); [left; assumption |].
      destruct (Z.ltb_spec (heart_rate v) 40); [right; left; assumption |].
      destruct (Z.ltb_spec 150 (heart_rate v));
        [right; right; left; assumption |].
      destruct (temperature v <? 35.0)%float;
        [right; right; right; left; reflexivity |].
      destruct (40.0 <? temperature v)%float;
        [right; right; right; right; left; reflexivity |].
      destruct (fall_detected v);
        [right; right; right; right; right; reflexivity |].
      cbn in H.
      destruct (spo2 v <? 92),
        ((heart_rate v <? 45) || (120 <? heart_rate v)),
        ((temperature v <? 35.5)%float || (38.5 <? temperature v)%float);
        discriminate.
    + intros [H | [H | [H | [H | [H | H]]]]].
      * rewrite (proj2 (Z.ltb_lt _ _) H). reflexivity.
      * rewrite (proj2 (Z.ltb_lt _ _) H), orb_true_r. reflexivity.
      * rewrite (proj2 (Z.ltb_lt _ _) H), !orb_true_r. reflexivity.
      * rewrite H, ?orb_true_r. reflexivity.
      * rewrite H, ?orb_true_r. reflexivity.
      * rewrite H, ?orb_true_r. reflexivity.
Qed.

Lemma classify_normal_emergency_iff_witness :
  (92 <= spo2 healthy /\ 45 <= heart_rate healthy <= 120
   /\ (temperature healthy <? 35.5)%float = false
   /\ (38.5 <? temperature healthy)%float = false
   /\ fall_detected healthy = false)
  /\ classify healthy = HealthStatus.NORMAL.
Proof.
  assert (H : 92 <= spo2 healthy /\ 45 <= heart_rate healthy <= 120
              /\ (temperature healthy <? 35.5)%float = false
              /\ (38.5 <? temperature healthy)%float = false
              /\ fall_detected healthy = false).
  { cbn. repeat split; lia || reflexivity. }
  split; [exact H |].
  exact (proj2 (proj1 (classify_normal_emergency_iff healthy)) H).
Defined.

(** X2. A temperature that is NaN raises no flag: the sample is classified
    as it would be with any temperature inside the normal band. *)
Theorem nan_temperature_raises_no_flag (v : VitalSigns) (t : float) :
  is_nan (temperature v) = true ->
  (t <? 35.5)%float = false ->
  (38.5 <? t)%float = false ->
  classify v = classify (with_temperature t v)
  /\ count_flags v = count_flags (with_temperature t v).
Proof.
  intros N Hlo Hhi.
  destruct (temperature_normal_not_critical t Hlo Hhi) as [C1 C2].
  unfold classify, overall_status, count_flags, with_temperature.
  cbn [spo2 heart_rate temperature fall_detected].
  rewrite (proj1 (nan_compares_false (temperature v) TEMP_CRITICAL_MIN N)),
    (proj2 (nan_compares_false (temperature v) TEMP_CRITICAL_MAX N)),
    (proj1 (nan_compares_false (temperature v) TEMP_MIN_NORMAL N)),
    (proj2 (nan_compares_false (temperature v) TEMP_MAX_NORMAL N)),
    C1, C2.
  change TEMP_MIN_NORMAL with 35.5%float.
  change TEMP_MAX_NORMAL with 38.5%float.
  rewrite Hlo, Hhi. split; reflexivity.
Qed.

Lemma nan_temperature_raises_no_flag_witness :
  is_nan (temperature (with_temperature nan low_spo2)) = true
  /\ classify (with_temperature nan low_spo2)
     = classify (with_temperature 36.8%float (with_temperature nan low_spo2)).
Proof.
  split; [reflexivity |].
  exact (proj1 (nan_temperature_raises_no_flag
                  (with_temperature nan low_spo2) 36.8%float
                  eq_refl eq_refl eq_refl)).
Defined.

(** ** The cadence of the simulated source *)

Lemma draws_in_range_bounds (d : Draws) :
  draws_in_range d = true ->
  (95 <= rand_spo2 d <= 99) /\ (70 <= rand_heart_rate d <= 90)
  /\ (87 <= rand_low_spo2 d <= 91) /\ (122 <= rand_high_heart_rate d <= 135)
  /\ (36.2 <=? rand_temperature d)%float = true
  /\ (rand_temperature d <=? 37.2)%float = true.
Proof.
  unfold draws_in_range. rewrite !andb_true_iff, !Z.leb_le. intuition.
Qed.

(** A temperature drawn from 36.2 to 37.2 passes the four checks. *)
Lemma usual_temperature_checks (t : float) :
  (36.2 <=? t)%float = true -> (t <=? 37.2)%float = true ->
  (t <? TEMP_CRITICAL_MIN)%float = false
  /\ (TEMP_CRITICAL_MAX <? t)%float = false
  /\ (t <? TEMP_MIN_NORMAL)%float = false
  /\ (TEMP_MAX_NORMAL <? t)%float = false.
Proof.
  intros Hlo Hhi. repeat split.
  - apply (not_below _ 36.2%float); [reflexivity | exact Hlo].
  - apply (not_above 37.2%float); [reflexivity | exact Hhi].
  - apply (not_below _ 36.2%float); [reflexivity | exact Hlo].
  - apply (not_above 37.2%float); [reflexivity | exact Hhi].
Qed.

(** The status of a simulated sample, for draws inside the ranges. *)
Lemma simulated_sample_classify (d : Draws) (n : Z) :
  draws_in_range d = true ->
  classify (simulated_sample d n) = simulation_status n
  /\ fall_detected (simulated_sample d n) = (n mod 15 =? 0).
Proof.
  intros R.
  destruct (draws_in_range_bounds d R) as (S & H & LS & HH & T1 & T2).
  destruct (usual_temperature_checks _ T1 T2) as (C1 & C2 & C3 & C4).
  rewrite classify_by_tests. cbv zeta.
  unfold simulated_sample, simulation_status.
  unfold SPO2_MIN_CRITICAL, SPO2_MIN_NORMAL, HEART_RATE_CRITICAL_MIN,
    HEART_RATE_CRITICAL_MAX, HEART_RATE_MIN, HEART_RATE_MAX.
  destruct (n mod 8 =? 0), (n mod 12 =? 0), (n mod 15 =? 0);
    cbn [spo2 heart_rate temperature fall_detected];
    rewrite C1, C2, C3, C4;
    repeat match goal with
      | |- context [?a <? ?b] =>
          first [ rewrite (proj2 (Z.ltb_ge a b)) by lia
                | rewrite (proj2 (Z.ltb_lt a b)) by lia ]
      end;
    split; reflexivity.
Qed.

(** X3. With draws inside the ranges the method asks [random] for, the
    status of the sample of measurement [n] is fixed by [n] alone: Emergency
    on every 15th measurement (the fall), otherwise Critical when [n] is
    both an 8th and a 12th measurement, otherwise Warning when it is one of
    them, otherwise Normal. *)
Theorem simulated_sample_status (d : Draws) (n : Z) :
  draws_in_range d = true ->
  classify (simulated_sample d n) = simulation_status n
  /\ fall_detected (simulated_sample d n) = (n mod 15 =? 0).
Proof. exact (simulated_sample_classify d n). Qed.

Lemma simulated_sample_status_witness :
  draws_in_range usual_draws = true
  /\ classify (simulated_sample usual_draws 48) = simulation_status 48.
Proof.
  split; [reflexivity |].
  exact (proj1 (simulated_sample_status usual_draws 48 eq_refl)).
Defined.

(** ** What is transmitted *)

Lemma cycle_sends (v : VitalSigns) (self : MinerHealthMonitor) :
  sent_by (cycle v) self =
    match classify v with
    | HealthStatus.CRITICAL => [mkTransmission false v HealthStatus.CRITICAL]
    | HealthStatus.EMERGENCY =>
        if emergency_sent self then []
        else [mkTransmission true v HealthStatus.EMERGENCY]
    | _ => []
    end.
Proof.
  unfold sent_by. destruct (classify v) eqn:H.
  - rewrite (cycle_normal v self H). reflexivity.
  - rewrite (cycle_warning v self H). reflexivity.
  - rewrite (cycle_critical v self H). reflexivity.
  - rewrite (cycle_emergency v self H). reflexivity.
Qed.

Lemma cycle_latch (v : VitalSigns) (self : MinerHealthMonitor) :
  emergency_sent (state_after (cycle v) self) =
    match classify v with
    | HealthStatus.NORMAL => false
    | HealthStatus.EMERGENCY => true
    | _ => emergency_sent self
    end.
Proof.
  unfold state_after. destruct (classify v) eqn:H.
  - rewrite (cycle_normal v self H). reflexivity.
  - rewrite (cycle_warning v self H).
    destruct (2 <=? anomaly_count self + 1); reflexivity.
  - rewrite (cycle_critical v self H). reflexivity.
  - rewrite (cycle_emergency v self H). reflexivity.
Qed.

(** X4. Whatever the samples of a run, each transmission carries the
    sample of one of its cycles together with the status the classifier
    gives that sample, and that status is Critical, sent with
    [is_emergency = false], or Emergency, sent with [is_emergency = true]:
    a cycle classified Normal or Warning transmits nothing. *)
Theorem transmissions_report_their_cycle (self : MinerHealthMonitor)
    (vs : list VitalSigns) :
  Forall
    (fun t =>
       In (sent_vitals t) vs
       /\ sent_status t = classify (sent_vitals t)
       /\ ((sent_status t = HealthStatus.CRITICAL /\ is_emergency t = false)
           \/ (sent_status t = HealthStatus.EMERGENCY /\ is_emergency t = true)))
    (sent_by (cycles vs) self).
Proof.
  revert self. induction vs as [| v vs IH]; intros self.
  - constructor.
  - destruct (cycles_cons v vs self) as [_ ->]. apply Forall_app. split.
    + rewrite cycle_sends. destruct (classify v) eqn:H; try constructor.
      * cbn. rewrite H. repeat split; [left; reflexivity | left; split; reflexivity].
      * constructor.
      * destruct (emergency_sent self); constructor; [| constructor].
        cbn. rewrite H.
        repeat split; [left; reflexivity | right; split; reflexivity].
    + eapply Forall_impl; [| apply IH].
      intros t (I & S & D). repeat split; [right; exact I | exact S | exact D].
Qed.

(** X5. In every run the transmissions without the emergency flag are as
    many as the cycles classified Critical, and the transmissions with it
    are bounded by the Normal cycles: counting one for a latch that is
    clear, emergency transmissions plus the latch after the run do not
    exceed Normal cycles plus the latch before it, so at most one more
    emergency transmission than Normal cycles is ever made. *)
Theorem transmission_counts (self : MinerHealthMonitor)
    (vs : list VitalSigns) :
  length (filter (fun t => negb (is_emergency t)) (sent_by (cycles vs) self))
  = length (filter (fun v => HealthStatus.eqb (classify v) HealthStatus.CRITICAL) vs)
  /\ (length (filter is_emergency (sent_by (cycles vs) self))
      + (if emergency_sent (state_after (cycles vs) self) then 0 else 1)
      <= length (filter (fun v => is_normal (classify v)) vs)
         + (if emergency_sent self then 0 else 1))%nat
  /\ (length (filter is_emergency (sent_by (cycles vs) self))
      <= length (filter (fun v => is_normal (classify v)) vs) + 1)%nat.
Proof.
  assert (G : forall vs self,
    length (filter (fun t => negb (is_emergency t)) (sent_by (cycles vs) self))
    = length (filter (fun v => HealthStatus.eqb (classify v) HealthStatus.CRITICAL) vs)
    /\ (length (filter is_emergency (sent_by (cycles vs) self))
        + (if emergency_sent (state_after (cycles vs) self) then 0 else 1)
        <= length (filter (fun v => is_normal (classify v)) vs)
           + (if emergency_sent self then 0 else 1))%nat).
  { clear. induction vs as [| v vs IH]; intros self.
    - cbn. split; [reflexivity | apply Nat.le_refl].
    - destruct (cycles_cons v vs self) as [-> ->].
      destruct (IH (state_after (cycle v) self)) as [IH1 IH2].
      rewrite !filter_app, !length_app, IH1.
      rewrite cycle_latch in IH2. rewrite cycle_sends.
      set (N := length (filter (fun v => is_normal (classify v)) vs)) in *.
      set (E := length (filter is_emergency
                          (sent_by (cycles vs) (state_after (cycle v) self)))) in *.
      destruct (emergency_sent
                  (state_after (cycles vs) (state_after (cycle v) self)));
        cbn [filter];
        destruct (classify v);
        cbn [is_normal HealthStatus.eqb length filter] in *; fold N;
        destruct (emergency_sent self);
        cbn [filter is_emergency negb length] in *; split; lia. }
  destruct (G vs self) as [G1 G2]. repeat split; [exact G1 | exact G2 |].
  destruct (emergency_sent (state_after (cycles vs) self)),
    (emergency_sent self); lia.
Qed.

(** ** The states of the controller *)

Lemma cycle_state (v : VitalSigns) (self : MinerHealthMonitor) :
  current_state (state_after (cycle v) self) =
    match classify v with
    | HealthStatus.NORMAL => power_down (current_state self)
    | HealthStatus.WARNING =>
        if 2 <=? anomaly_count self + 1
        then SystemState.EXTENDED_MONITORING
        else power_down (current_state self)
    | HealthStatus.CRITICAL => SystemState.EXTENDED_MONITORING
    | HealthStatus.EMERGENCY => SystemState.EMERGENCY
    end.
Proof.
  unfold state_after. destruct (classify v) eqn:H.
  - rewrite (cycle_normal v self H). reflexivity.
  - rewrite (cycle_warning v self H).
    destruct (2 <=? anomaly_count self + 1); reflexivity.
  - rewrite (cycle_critical v self H). reflexivity.
  - rewrite (cycle_emergency v self H). reflexivity.
Qed.

(** X6. Once the state is ExtendedMonitoring or Emergency it is one of
    these two after every further cycle, whatever the samples: no sequence
    of cycles brings the controller back to Sleep. *)
Theorem escalated_state_never_left (self : MinerHealthMonitor)
    (vs : list VitalSigns) :
  escalated (current_state self) = true ->
  escalated (current_state (state_after (cycles vs) self)) = true
  /\ current_state (state_after (cycles vs) self) <> SystemState.SLEEP.
Proof.
  intros E.
  assert (G : escalated (current_state (state_after (cycles vs) self)) = true).
  { revert self E. induction vs as [| v vs IH]; intros self E; [exact E |].
    destruct (cycles_cons v vs self) as [-> _]. apply IH.
    rewrite cycle_state.
    destruct (classify v); try reflexivity;
      try destruct (2 <=? anomaly_count self + 1); try reflexivity;
      destruct (current_state self); try discriminate; reflexivity. }
  split; [exact G |]. intros C. rewrite C in G. discriminate.
Qed.

Lemma escalated_state_never_left_witness :
  escalated (current_state (state_after (cycle fallen) init)) = true
  /\ current_state
       (state_after (cycles [healthy; low_spo2; healthy])
          (state_after (cycle fallen) init))
     <> SystemState.SLEEP.
Proof.
  split; [reflexivity |].
  exact (proj2 (escalated_state_never_left (state_after (cycle fallen) init)
                  [healthy; low_spo2; healthy] eq_refl)).
Defined.

Lemma cycle_fields (v : VitalSigns) (self : MinerHealthMonitor) :
  monitoring_interval (state_after (cycle v) self) =
    match classify v with
    | HealthStatus.NORMAL => 35
    | HealthStatus.WARNING =>
        if 2 <=? anomaly_count self + 1 then 10 else monitoring_interval self
    | HealthStatus.CRITICAL => 10
    | HealthStatus.EMERGENCY => 5
    end
  /\ anomaly_count (state_after (cycle v) self) =
    match classify v with
    | HealthStatus.NORMAL => 0
    | HealthStatus.WARNING => anomaly_count self + 1
    | _ => anomaly_count self
    end
  /\ measurement_count (state_after (cycle v) self) = measurement_count self + 1
  /\ vitals (state_after (cycle v) self) = v
  /\ health_status (state_after (cycle v) self) = classify v.
Proof.
  unfold state_after. destruct (classify v) eqn:H.
  - rewrite (cycle_normal v self H). repeat split.
  - rewrite (cycle_warning v self H).
    destruct (2 <=? anomaly_count self + 1); repeat split.
  - rewrite (cycle_critical v self H). repeat split.
  - rewrite (cycle_emergency v self H). repeat split.
Qed.

(** X7. Between the cycles of a run: the state is Sleep,
    ExtendedMonitoring or Emergency (Waking, Monitoring and Transmitting
    are never entered); the anomaly count is not negative and not above the
    number of measurements; an interval of 5 s goes with the state
    Emergency and a set latch, an interval of 10 s with the state
    ExtendedMonitoring; and in the state Sleep the interval is 35 s, the
    latch is clear and the anomaly count is at most 1. *)
Theorem reachable_invariants (self : MinerHealthMonitor) :
  reachable self ->
  (current_state self = SystemState.SLEEP
   \/ current_state self = SystemState.EXTENDED_MONITORING
   \/ current_state self = SystemState.EMERGENCY)
  /\ 0 <= anomaly_count self <= measurement_count self
  /\ (monitoring_interval self = 5 ->
      current_state self = SystemState.EMERGENCY
      /\ emergency_sent self = true)
  /\ (monitoring_interval self = 10 ->
      current_state self = SystemState.EXTENDED_MONITORING)
  /\ (current_state self = SystemState.SLEEP ->
      monitoring_interval self = 35 /\ emergency_sent self = false
      /\ anomaly_count self <= 1).
Proof.
  induction 1 as [| self v R IH].
  - cbn. repeat split; intros; try lia; try discriminate. left; reflexivity.
  - destruct IH as (St & Cnt & I5 & I10 & Sl).
    destruct (cycle_fields v self) as (Ei & Ec & Em & _ & _).
    rewrite cycle_state, cycle_latch, Ei, Ec, Em.
    destruct (classify v).
    + assert (P : power_down (current_state self) = current_state self)
        by (apply reachable_power_down; exact R).
      rewrite P. repeat split; intros; try lia; try discriminate; assumption.
    + assert (P : power_down (current_state self) = current_state self)
        by (apply reachable_power_down; exact R).
      rewrite P.
      destruct (Z.leb_spec 2 (anomaly_count self + 1)).
      * repeat split; intros; try lia; try discriminate.
        right; left; reflexivity.
      * repeat split; intros; try lia; try assumption;
          try (apply I5; assumption); try (apply I10; assumption);
          try (apply Sl; assumption).
    + repeat split; intros; try lia; try discriminate.
      right; left; reflexivity.
    + repeat split; intros; try lia; try discriminate.
      right; right; reflexivity.
Qed.

Lemma reachable_invariants_witness :
  reachable (state_after (cycle low_spo2) (state_after (cycle fallen) init))
  /\ (monitoring_interval
        (state_after (cycle low_spo2) (state_after (cycle fallen) init)) = 5 ->
      current_state
        (state_after (cycle low_spo2) (state_after (cycle fallen) init))
      = SystemState.EMERGENCY
      /\ emergency_sent
           (state_after (cycle low_spo2) (state_after (cycle fallen) init))
         = true).
Proof.
  assert (R : reachable
                (state_after (cycle low_spo2) (state_after (cycle fallen) init)))
    by (repeat constructor).
  split; [exact R |].
  exact (proj1 (proj2 (proj2 (reachable_invariants _ R)))).
Defined.

(** ** A run of the simulation *)

Lemma run_loop_reading (d : Draws) (env : list Draws) (c : Z)
    (self : MinerHealthMonitor) :
  run_loop (d :: env) c self
  = after_sending
      (sent_by (cycle (simulated_sample d (measurement_count self + 1))) self)
      (run_loop env (c + 1)
         (state_after (cycle (simulated_sample d (measurement_count self + 1)))
            self)).
Proof.
  cbn [run_loop]. rewrite monitoring_cycle_is_cycle.
  unfold sent_by, state_after.
  destruct (cycle _ self) as [[[] self1] out]. reflexivity.
Qed.

Lemma simulation_status_cases (n : Z) :
  (simulation_status n = HealthStatus.EMERGENCY /\ n mod 15 = 0)
  \/ (simulation_status n = HealthStatus.CRITICAL
      /\ n mod 15 <> 0 /\ n mod 24 = 0)
  \/ (simulation_status n = HealthStatus.WARNING
      /\ n mod 15 <> 0 /\ n mod 24 <> 0 /\ (n mod 8 = 0 \/ n mod 12 = 0))
  \/ (simulation_status n = HealthStatus.NORMAL
      /\ n mod 15 <> 0 /\ n mod 8 <> 0 /\ n mod 12 <> 0).
Proof.
  unfold simulation_status.
  destruct (Z.eqb_spec (n mod 15) 0) as [E15 | E15]; [left; split; auto |].
  destruct (Z.eqb_spec (n mod 8) 0) as [E8 | E8],
    (Z.eqb_spec (n mod 12) 0) as [E12 | E12]; cbn.
  - right; left. repeat split; [assumption |].
    revert E8 E12. Z.div_mod_to_equations. lia.
  - right; right; left. repeat split; [assumption | | left; assumption].
    revert E8 E12. Z.div_mod_to_equations. lia.
  - right; right; left. repeat split; [assumption | | right; assumption].
    revert E8 E12. Z.div_mod_to_equations. lia.
  - right; right; right. repeat split; assumption.
Qed.

Lemma simulation_step (d : Draws) (n : Z) (self : MinerHealthMonitor) :
  draws_in_range d = true ->
  simulation_invariant n self ->
  simulation_invariant (n + 1)
    (state_after (cycle (simulated_sample d (n + 1))) self)
  /\ sent_by (cycle (simulated_sample d (n + 1))) self
     = (if (n + 1) mod 15 =? 0
        then [mkTransmission true (simulated_sample d (n + 1))
                HealthStatus.EMERGENCY]
        else if (n + 1) mod 24 =? 0
        then [mkTransmission false (simulated_sample d (n + 1))
                HealthStatus.CRITICAL]
        else []).
Proof.
  intros R ((Mc & N0) & La & An & Sl & Es).
  set (v := simulated_sample d (n + 1)).
  assert (Cl : classify v = simulation_status (n + 1))
    by (apply simulated_sample_classify; exact R).
  destruct (cycle_fields v self) as (_ & Ec & Em & _ & _).
  unfold simulation_invariant.
  rewrite cycle_state, cycle_latch, cycle_sends, Ec, Em, Cl.
  destruct (simulation_status_cases (n + 1))
    as [(-> & E15) | [(-> & E15 & E24) | [(-> & E15 & E24 & W) | (-> & E15 & E8 & E12)]]].
  - (* Emergency *)
    rewrite (proj2 (Z.eqb_eq _ _) E15).
    assert (L : emergency_sent self = false).
    { destruct (emergency_sent self); [| reflexivity].
      exfalso. specialize (La eq_refl). revert La E15.
      Z.div_mod_to_equations. lia. }
    rewrite L.
    split; [split; [| split; [| split; [| split]]] |].
    + split; lia.
    + intros _. left. exact E15.
    + destruct An as [A | (A & Wn)]; [left; exact A |].
      right. split; [exact A |]. right. split; [| exact E15].
      replace (n + 1 - 1) with n by lia.
      destruct Wn as [Wn | (_ & N15)]; [exact Wn |].
      exfalso. revert N15 E15. Z.div_mod_to_equations. lia.
    + intros Lt. exfalso. revert Lt E15. Z.div_mod_to_equations. lia.
    + intros _. right. reflexivity.
    + reflexivity.
  - (* Critical *)
    rewrite (proj2 (Z.eqb_neq _ _) E15), (proj2 (Z.eqb_eq _ _) E24).
    split; [split; [| split; [| split; [| split]]] |].
    + split; lia.
    + intros L. specialize (La L). right. revert La E24.
      Z.div_mod_to_equations. lia.
    + left. destruct An as [A | (A & Wn)]; [exact A |].
      exfalso. revert Wn E24. Z.div_mod_to_equations. lia.
    + intros Lt. exfalso. revert Lt E24. Z.div_mod_to_equations. lia.
    + intros _. left. reflexivity.
    + reflexivity.
  - (* Warning *)
    rewrite (proj2 (Z.eqb_neq _ _) E15), (proj2 (Z.eqb_neq _ _) E24).
    assert (A : anomaly_count self = 0).
    { destruct An as [A | (A & Wn)]; [exact A |].
      exfalso. revert Wn W. Z.div_mod_to_equations. lia. }
    rewrite A. change (2 <=? 0 + 1) with false. cbv iota.
    assert (P : 15 <= n -> power_down (current_state self) = current_state self).
    { intros Ge. destruct (Es Ge) as [-> | ->]; reflexivity. }
    split; [split; [| split; [| split; [| split]]] |].
    + split; lia.
    + intros L. specialize (La L). right. revert La W.
      Z.div_mod_to_equations. lia.
    + right. split; [reflexivity |]. left. exact W.
    + intros Lt. rewrite Sl by lia. reflexivity.
    + intros Ge.
      assert (Ge' : 15 <= n).
      { revert Ge E15. Z.div_mod_to_equations. lia. }
      rewrite (P Ge'). exact (Es Ge').
    + reflexivity.
  - (* Normal *)
    rewrite (proj2 (Z.eqb_neq _ _) E15).
    assert (E24 : (n + 1) mod 24 <> 0).
    { revert E8. Z.div_mod_to_equations. lia. }
    rewrite (proj2 (Z.eqb_neq _ _) E24).
    assert (P : 15 <= n -> power_down (current_state self) = current_state self).
    { intros Ge. destruct (Es Ge) as [-> | ->]; reflexivity. }
    split; [split; [| split; [| split; [| split]]] |].
    + split; lia.
    + intros L. discriminate.
    + left. reflexivity.
    + intros Lt. rewrite Sl by lia. reflexivity.
    + intros Ge.
      assert (Ge' : 15 <= n).
      { revert Ge E15. Z.div_mod_to_equations. lia. }
      rewrite (P Ge'). exact (Es Ge').
    + reflexivity.
Qed.

Lemma simulation_run_from (ds : list Draws) :
  Forall (fun d => draws_in_range d = true) ds ->
  forall (n c : Z) (self : MinerHealthMonitor),
    simulation_invariant n self ->
    run_loop ds c self
    = Completed (final_object (run_loop ds c self))
        (simulation_transmissions n ds) (c + Z.of_nat (length ds))
    /\ simulation_invariant (n + Z.of_nat (length ds))
         (final_object (run_loop ds c self)).
Proof.
  induction 1 as [| d ds R _ IH]; intros n c self Inv.
  - cbn. rewrite !Z.add_0_r. split; [reflexivity | exact Inv].
  - rewrite run_loop_reading.
    assert (Mc : measurement_count self = n) by (apply Inv).
    rewrite Mc.
    destruct (simulation_step d n self R Inv) as [Inv' ->].
    destruct (IH (n + 1) (c + 1) _ Inv') as [Run Fin].
    rewrite Run. cbn [after_sending final_object simulation_transmissions length].
    replace (c + 1 + Z.of_nat (length ds)) with (c + Z.of_nat (S (length ds)))
      by lia.
    split; [reflexivity |].
    replace (n + Z.of_nat (S (length ds))) with (n + 1 + Z.of_nat (length ds))
      by lia.
    exact Fin.
Qed.

Lemma simulation_invariant_init : simulation_invariant 0 init.
Proof.
  unfold simulation_invariant. cbn.
  repeat split; try lia; try discriminate; try reflexivity; auto.
Qed.

Lemma simulation_transmissions_count (ds : list Draws) (n : Z) :
  0 <= n ->
  Z.of_nat (length (filter is_emergency (simulation_transmissions n ds)))
  = (n + Z.of_nat (length ds)) / 15 - n / 15
  /\ Z.of_nat (length (filter (fun t => negb (is_emergency t))
                         (simulation_transmissions n ds)))
     = ((n + Z.of_nat (length ds)) / 24 - n / 24)
       - ((n + Z.of_nat (length ds)) / 120 - n / 120).
Proof.
  revert n. induction ds as [| d ds IH]; intros n N0.
  - cbn. rewrite !Z.add_0_r. lia.
  - cbn [simulation_transmissions length].
    destruct (IH (n + 1)) as [IH1 IH2]; [lia |].
    rewrite !filter_app, !length_app, !Nat2Z.inj_add, IH1, IH2.
    replace (n + Z.of_nat (S (length ds))) with (n + 1 + Z.of_nat (length ds))
      by lia.
    set (m := n + 1 + Z.of_nat (length ds)).
    destruct (Z.eqb_spec ((n + 1) mod 15) 0) as [E15 | E15];
      [| destruct (Z.eqb_spec ((n + 1) mod 24) 0) as [E24 | E24]];
      cbn [filter is_emergency negb length Z.of_nat].
    + split.
      * revert E15. Z.div_mod_to_equations. lia.
      * revert E15. Z.div_mod_to_equations. lia.
    + split.
      * revert E15 E24. Z.div_mod_to_equations. lia.
      * revert E15 E24. Z.div_mod_to_equations. lia.
    + split.
      * revert E15 E24. Z.div_mod_to_equations. lia.
      * revert E15 E24. Z.div_mod_to_equations. lia.
Qed.

(** X8. A run of the simulation with draws inside the ranges makes one
    cycle per loop iteration and transmits exactly this: an
    emergency transmission on every 15th measurement (the latch never
    suppresses one) and a plain transmission on every 24th measurement that
    is not a 15th.  After [N] readings that is [N / 15] emergency
    transmissions and [N / 24 - N / 120] plain ones. *)
Theorem simulation_run_transmissions (ds : list Draws) :
  Forall (fun d => draws_in_range d = true) ds ->
  run ds init
  = Completed (final_object (run ds init))
      (simulation_transmissions 0 ds) (Z.of_nat (length ds))
  /\ Z.of_nat (length (filter is_emergency
                         (transmitted (run ds init))))
     = Z.of_nat (length ds) / 15
  /\ Z.of_nat (length (filter (fun t => negb (is_emergency t))
                         (transmitted (run ds init))))
     = Z.of_nat (length ds) / 24 - Z.of_nat (length ds) / 120.
Proof.
  intros R. unfold run.
  destruct (simulation_run_from ds R 0 0 init simulation_invariant_init)
    as [Run _].
  split; [exact Run |]. rewrite Run. cbn [transmitted].
  destruct (simulation_transmissions_count ds 0) as [C1 C2]; [lia |].
  rewrite C1, C2. cbn. split; lia.
Qed.

Lemma simulation_run_transmissions_witness :
  Forall (fun d => draws_in_range d = true) (repeat usual_draws 30)
  /\ Z.of_nat (length (filter is_emergency
                         (transmitted
                            (run (repeat usual_draws 30) init))))
     = Z.of_nat (length (repeat usual_draws 30)) / 15.
Proof.
  assert (R : Forall (fun d => draws_in_range d = true) (repeat usual_draws 30))
    by (repeat constructor).
  split; [exact R |].
  exact (proj1 (proj2 (simulation_run_transmissions _ R))).
Defined.

(** X9. In a run of the simulation with draws inside the ranges the anomaly
    count never exceeds 1, so the escalation on a second consecutive Warning
    is never taken; the state is Sleep up to measurement 14 and, from the
    first fall at measurement 15 on, ExtendedMonitoring or Emergency for the
    rest of the run; and the latch is found set only right after a 15th
    measurement or one measurement later. *)
Theorem simulation_run_state (ds : list Draws) :
  Forall (fun d => draws_in_range d = true) ds ->
  let self := final_object (run ds init) in
  let n := Z.of_nat (length ds) in
  measurement_count self = n
  /\ 0 <= anomaly_count self <= 1
  /\ (n < 15 -> current_state self = SystemState.SLEEP)
  /\ (15 <= n -> escalated (current_state self) = true)
  /\ (emergency_sent self = true -> n mod 15 = 0 \/ n mod 15 = 1).
Proof.
  intros R self n. unfold run in self.
  destruct (simulation_run_from ds R 0 0 init simulation_invariant_init)
    as [_ Inv].
  fold self in Inv. rewrite Z.add_0_l in Inv. fold n in Inv.
  destruct Inv as ((Mc & _) & La & An & Sl & Es).
  split; [exact Mc |]. split; [destruct An as [-> | [-> _]]; lia |].
  split; [exact Sl |]. split.
  - intros Ge. destruct (Es Ge) as [-> | ->]; reflexivity.
  - intros L. destruct (La L) as [H | [H _]]; [left | right]; exact H.
Qed.

Lemma simulation_run_state_witness :
  Forall (fun d => draws_in_range d = true) (repeat usual_draws 17)
  /\ escalated
       (current_state
          (final_object (run (repeat usual_draws 17) init)))
     = true.
Proof.
  assert (R : Forall (fun d => draws_in_range d = true) (repeat usual_draws 17))
    by (repeat constructor).
  split; [exact R |].
  refine (proj1 (proj2 (proj2 (proj2 (simulation_run_state _ R)))) _).
  cbn. lia.
Defined.

(** ** The dashboard's simulated vitals *)

Lemma SFltb_leb_trans (x y z : spec_float) :
  SFltb x y = true -> SFleb y z = true -> SFltb x z = true.
Proof.
  unfold SFltb, SFleb.
  destruct x as [sx | sx | | sx mx ex], y as [sy | sy | | sy my ey],
    z as [sz | sz | | sz mz ez]; cbn;
    try discriminate; try reflexivity;
    try (destruct sx; discriminate || reflexivity);
    try (destruct sx, sy; discriminate || reflexivity);
    try (destruct sx, sz; discriminate || reflexivity);
    try (destruct sy, sz; discriminate || reflexivity);
    try (destruct sx, sy, sz; discriminate || reflexivity).
  all: destruct sx, sy, sz; cbn; try discriminate; try reflexivity.
  all: repeat match goal with
    | |- context [PosDef.Pos.compare_cont Eq ?p ?q] =>
        change (PosDef.Pos.compare_cont Eq p q) with (Pos.compare p q)
    end.
  all: destruct (Z.compare_spec ex ey), (Z.compare_spec ey ez),
        (Z.compare_spec ex ez); try discriminate; try reflexivity; try lia.
  all: subst.
  all: destruct (Pos.compare_spec mx my), (Pos.compare_spec my mz),
        (Pos.compare_spec mx mz); cbn; try discriminate; try reflexivity; lia.
Qed.

(** A value at or above [a] is above a threshold under [a]. *)
Lemma above (b a t : float) :
  (b <? a)%float = true -> (a <=? t)%float = true -> (b <? t)%float = true.
Proof. rewrite !ltb_spec, leb_spec. apply SFltb_leb_trans. Qed.

Lemma graphical_draws_bounds (d : Graphical.Draws) :
  Graphical.draws_in_range d = true ->
  (95 <= Graphical.rand_spo2 d <= 99)
  /\ (70 <= Graphical.rand_heart_rate d <= 90)
  /\ (87 <= Graphical.rand_low_spo2 d <= 91)
  /\ (122 <= Graphical.rand_high_heart_rate d <= 135)
  /\ (36.2 <=? Graphical.rand_temperature d)%float = true
  /\ (Graphical.rand_temperature d <=? 37.2)%float = true
  /\ (38.6 <=? Graphical.rand_high_temperature d)%float = true
  /\ (Graphical.rand_high_temperature d <=? 39.2)%float = true.
Proof.
  unfold Graphical.draws_in_range. rewrite !andb_true_iff, !Z.leb_le.
  intuition.
Qed.

(** The status of the vitals [simulate_vitals] returns on cycle
    [cycle_count + 1], and the count it leaves. *)
Lemma simulate_vitals_classify (d : Graphical.Draws) (self : Graphical.t) :
  Graphical.draws_in_range d = true ->
  let '(self', (heart_rate, spo2, temperature)) :=
    Graphical.simulate_vitals d self in
  Graphical.cycle_count self' = Graphical.cycle_count self + 1
  /\ Graphical.dashboard self' = Graphical.dashboard self
  /\ Dashboard.analyze_health heart_rate spo2 temperature
     = Graphical.simulation_status (Graphical.cycle_count self + 1).
Proof.
  intros R.
  destruct (graphical_draws_bounds d R)
    as (S & H & LS & HH & T1 & T2 & T3 & T4).
  destruct (usual_temperature_checks _ T1 T2) as (C1 & C2 & C3 & C4).
  assert (D1 : (Graphical.rand_high_temperature d <? 35.0)%float = false)
    by (apply (not_below _ 38.6%float); [reflexivity | exact T3]).
  assert (D2 : (40.0 <? Graphical.rand_high_temperature d)%float = false)
    by (apply (not_above 39.2%float); [reflexivity | exact T4]).
  assert (D3 : (Graphical.rand_high_temperature d <? 35.5)%float = false)
    by (apply (not_below _ 38.6%float); [reflexivity | exact T3]).
  assert (D4 : (38.5 <? Graphical.rand_high_temperature d)%float = true)
    by (apply (above _ 38.6%float); [reflexivity | exact T3]).
  change TEMP_CRITICAL_MIN with 35.0%float in C1.
  change TEMP_CRITICAL_MAX with 40.0%float in C2.
  change TEMP_MIN_NORMAL with 35.5%float in C3.
  change TEMP_MAX_NORMAL with 38.5%float in C4.
  unfold Graphical.simulate_vitals, Graphical.simulation_status,
    Dashboard.analyze_health.
  cbv zeta. cbn [Graphical.cycle_count Graphical.dashboard].
  change Dashboard.TEMP_MIN_NORMAL with 35.5%float.
  change Dashboard.TEMP_MAX_NORMAL with 38.5%float.
  unfold Dashboard.SPO2_MIN_CRITICAL, Dashboard.SPO2_MIN_NORMAL,
    Dashboard.HEART_RATE_MIN, Dashboard.HEART_RATE_MAX.
  split; [reflexivity |]. split; [reflexivity |].
  destruct ((Graphical.cycle_count self + 1) mod 8 =? 0),
    ((Graphical.cycle_count self + 1) mod 12 =? 0),
    ((Graphical.cycle_count self + 1) mod 15 =? 0);
    rewrite ?C1, ?C2, ?C3, ?C4, ?D1, ?D2, ?D3, ?D4;
    repeat match goal with
      | |- context [?a <? ?b] =>
          first [ rewrite (proj2 (Z.ltb_ge a b)) by lia
                | rewrite (proj2 (Z.ltb_lt a b)) by lia ]
      end;
    reflexivity.
Qed.

Lemma graphical_status_not_emergency (n : Z) :
  Graphical.simulation_status n <> HealthStatus.EMERGENCY.
Proof.
  unfold Graphical.simulation_status. cbv zeta.
  destruct (2 <=? _); [discriminate |]. destruct (1 <=? _); discriminate.
Qed.

(** X10. With draws inside the ranges it asks [random] for, the dashboard's
    [simulate_vitals] counts the cycle and returns vitals whose status, by
    the dashboard's classifier, is fixed by the cycle number: one warning
    for each of the cadences 8, 12 and 15 the number falls on, Critical
    from two, Warning for one, Normal for none.  The status is never
    Emergency: the raised temperature stays under the critical bound and
    the dashboard simulates no fall. *)
Theorem graphical_simulate_vitals_status (d : Graphical.Draws)
    (self : Graphical.t) :
  Graphical.draws_in_range d = true ->
  let '(self', (heart_rate, spo2, temperature)) :=
    Graphical.simulate_vitals d self in
  Graphical.cycle_count self' = Graphical.cycle_count self + 1
  /\ Dashboard.analyze_health heart_rate spo2 temperature
     = Graphical.simulation_status (Graphical.cycle_count self + 1)
  /\ Dashboard.analyze_health heart_rate spo2 temperature
     <> HealthStatus.EMERGENCY.
Proof.
  intros R. pose proof (simulate_vitals_classify d self R) as H.
  destruct (Graphical.simulate_vitals d self) as [self' [[hr s] t]].
  destruct H as (Hc & _ & Hs). split; [exact Hc |]. split; [exact Hs |].
  rewrite Hs. apply graphical_status_not_emergency.
Qed.

Lemma graphical_simulate_vitals_status_witness :
  Graphical.draws_in_range graphical_draws = true
  /\ Dashboard.analyze_health 128 97 38.9%float
     = Graphical.simulation_status 60.
Proof.
  split; [reflexivity |].
  exact (proj1 (proj2 (graphical_simulate_vitals_status graphical_draws
                         (Graphical.mk (MinerDashboard.init 100) 59)
                         eq_refl))).
Defined.

(** ** The dashboard's buffers *)

Lemma deque_append_length {A : Type} (maxlen : nat) (x : A) (q : list A) :
  length (MinerDashboard.deque_append maxlen x q)
  = if Nat.ltb (length q) maxlen then S (length q) else length q.
Proof.
  unfold MinerDashboard.deque_append.
  destruct (Nat.ltb (length q) maxlen).
  - rewrite length_app. cbn. lia.
  - destruct q as [| a q]; [reflexivity |]. cbn. rewrite length_app. cbn. lia.
Qed.

Lemma deque_append_bounded {A : Type} (maxlen : nat) (x : A) (q : list A) :
  (length q <= maxlen)%nat ->
  length (MinerDashboard.deque_append maxlen x q)
  = Nat.min (S (length q)) maxlen.
Proof.
  intros H. rewrite deque_append_length.
  destruct (Nat.ltb_spec (length q) maxlen); lia.
Qed.

Lemma deque_append_last {A : Type} (maxlen : nat) (x d : A) (q : list A) :
  (0 < maxlen)%nat -> (length q <= maxlen)%nat ->
  last (MinerDashboard.deque_append maxlen x q) d = x.
Proof.
  intros Hm Hq. unfold MinerDashboard.deque_append.
  destruct (Nat.ltb_spec (length q) maxlen); [apply last_last |].
  destruct q as [| a q]; [cbn in *; lia |]. cbn [app tl]. apply last_last.
Qed.

Lemma deque_append_Forall {A : Type} (P : A -> Prop) (maxlen : nat) (x : A)
    (q : list A) :
  P x -> Forall P q -> Forall P (MinerDashboard.deque_append maxlen x q).
Proof.
  intros Hx Hq. unfold MinerDashboard.deque_append.
  assert (F : Forall P (q ++ [x]))
    by (apply Forall_app; split; [exact Hq | constructor; [exact Hx | constructor]]).
  destruct (Nat.ltb (length q) maxlen); [exact F |].
  destruct (q ++ [x]); [constructor | exact (Forall_inv_tail F)].
Qed.

Lemma add_all_snoc (ms : list MinerDashboard.Measurement)
    (m : MinerDashboard.Measurement) (self : MinerDashboard.t) :
  MinerDashboard.add_all (ms ++ [m]) self
  = MinerDashboard.add m (MinerDashboard.add_all ms self).
Proof. unfold MinerDashboard.add_all. rewrite fold_left_app. reflexivity. Qed.

Lemma add_measurement_aligned (heart_rate spo2 : Z) (temperature : float)
    (power_active : bool) (self : MinerDashboard.t) :
  MinerDashboard.aligned self ->
  MinerDashboard.aligned
    (MinerDashboard.add_measurement heart_rate spo2 temperature power_active self)
  /\ length (MinerDashboard.time_data
               (MinerDashboard.add_measurement heart_rate spo2 temperature
                  power_active self))
     = Nat.min (S (length (MinerDashboard.time_data self)))
         (MinerDashboard.max_points self).
Proof.
  intros (B & H1 & H2 & H3 & H4 & H5).
  unfold MinerDashboard.aligned, MinerDashboard.add_measurement.
  cbn [MinerDashboard.max_points MinerDashboard.time_data
       MinerDashboard.heart_rate_data MinerDashboard.spo2_data
       MinerDashboard.temperature_data MinerDashboard.battery_data
       MinerDashboard.power_mode_data].
  rewrite !deque_append_bounded by lia.
  rewrite H1, H2, H3, H4, H5. repeat split; lia.
Qed.

(** The buffers after any sequence of measurements from a new dashboard. *)
Lemma dashboard_buffers_aligned_aux (max_data_points : nat)
    (ms : list MinerDashboard.Measurement) :
  let self := MinerDashboard.add_all ms (MinerDashboard.init max_data_points) in
  MinerDashboard.aligned self
  /\ length (MinerDashboard.time_data self)
     = Nat.min (length ms) max_data_points
  /\ MinerDashboard.measurement_count self = Z.of_nat (length ms)
  /\ MinerDashboard.max_points self = max_data_points.
Proof.
  induction ms as [| m ms IH] using rev_ind.
  - cbn. unfold MinerDashboard.aligned. cbn. repeat split; lia.
  - cbv zeta in *. rewrite add_all_snoc.
    destruct IH as (Al & Len & Cnt & Mx).
    unfold MinerDashboard.add.
    destruct (add_measurement_aligned (MinerDashboard.m_heart_rate m)
                (MinerDashboard.m_spo2 m) (MinerDashboard.m_temperature m)
                (MinerDashboard.m_power_active m) _ Al) as [Al' Len'].
    split; [exact Al' |]. rewrite Len', Len, Mx, length_app.
    cbn [MinerDashboard.add_measurement MinerDashboard.measurement_count
         MinerDashboard.max_points length].
    rewrite Cnt, Mx. repeat split; lia.
Qed.

(** X11. Starting from a new dashboard, after any sequence of
    measurements the six buffers hold the same number of entries, which is
    the number of measurements made until it reaches [max_points] and
    [max_points] from then on, while [measurement_count] keeps counting
    every measurement. *)
Theorem dashboard_buffers_aligned (max_data_points : nat)
    (ms : list MinerDashboard.Measurement) :
  let self := MinerDashboard.add_all ms (MinerDashboard.init max_data_points) in
  MinerDashboard.aligned self
  /\ length (MinerDashboard.time_data self)
     = Nat.min (length ms) max_data_points
  /\ MinerDashboard.measurement_count self = Z.of_nat (length ms)
  /\ MinerDashboard.max_points self = max_data_points.
Proof. exact (dashboard_buffers_aligned_aux max_data_points ms). Qed.

(** X12. The time stamp [add_measurement] records is the number of entries
    the buffer held before the call.  From a new dashboard with room for at
    least one entry, the stamp of the measurement made after [k] others is
    therefore [k] while the buffer fills and [max_points] ever after: once
    the buffer is full the time axis stops advancing and every new point
    gets the same stamp. *)
Theorem dashboard_time_stamp_saturates (max_data_points : nat)
    (ms : list MinerDashboard.Measurement) (m : MinerDashboard.Measurement) :
  (0 < max_data_points)%nat ->
  last (MinerDashboard.time_data
          (MinerDashboard.add_all (ms ++ [m])
             (MinerDashboard.init max_data_points))) 0
  = Z.of_nat (Nat.min (length ms) max_data_points).
Proof.
  intros Hm. rewrite add_all_snoc.
  destruct (dashboard_buffers_aligned_aux max_data_points ms)
    as (Al & Len & _ & Mx).
  unfold MinerDashboard.add, MinerDashboard.add_measurement.
  cbn [MinerDashboard.time_data].
  rewrite deque_append_last; [rewrite Len; reflexivity | lia |].
  rewrite Mx. destruct Al as [B _]. rewrite Mx in B. exact B.
Qed.

Lemma dashboard_time_stamp_saturates_witness :
  (0 < 2)%nat
  /\ last (MinerDashboard.time_data
             (MinerDashboard.add_all
                ([sleep_measurement; sleep_measurement; sleep_measurement]
                 ++ [sleep_measurement])
                (MinerDashboard.init 2))) 0
     = Z.of_nat (Nat.min 3 2).
Proof.
  split; [lia |].
  exact (dashboard_time_stamp_saturates 2
           [sleep_measurement; sleep_measurement; sleep_measurement]
           sleep_measurement (Nat.lt_0_succ 1)).
Defined.

(** ** The dashboard's battery *)

Lemma max0_charge_ok (y : float) : charge_ok (MinerDashboard.max0 y).
Proof.
  unfold charge_ok, MinerDashboard.max0.
  destruct (0 <? y)%float eqn:E; [right; exact E | left; reflexivity].
Qed.

(** X13. From a new dashboard, after any sequence of measurements the
    battery level and every level recorded in [battery_data] is zero or
    above zero: the discharge never takes the level below zero and never
    leaves a NaN. *)
Theorem dashboard_battery_never_negative (max_data_points : nat)
    (ms : list MinerDashboard.Measurement) :
  let self := MinerDashboard.add_all ms (MinerDashboard.init max_data_points) in
  charge_ok (MinerDashboard.battery_level self)
  /\ Forall charge_ok (MinerDashboard.battery_data self).
Proof.
  induction ms as [| m ms IH] using rev_ind.
  - cbn. split; [right; reflexivity | constructor].
  - cbv zeta in *. rewrite add_all_snoc. destruct IH as [_ IH].
    unfold MinerDashboard.add, MinerDashboard.add_measurement.
    cbn [MinerDashboard.battery_level MinerDashboard.battery_data].
    split; [apply max0_charge_ok |].
    apply deque_append_Forall; [apply max0_charge_ok | exact IH].
Qed.

(** ** The dashboard's loop *)

Lemma run_cycle_fields (d : Graphical.Draws) (clock : String.string)
    (self : Graphical.t) :
  Graphical.draws_in_range d = true ->
  MinerDashboard.aligned (Graphical.dashboard self) ->
  let s := Graphical.simulation_status (Graphical.cycle_count self + 1) in
  let self' := fst (Graphical.run_cycle d clock self) in
  snd (Graphical.run_cycle d clock self) = s
  /\ Graphical.cycle_count self' = Graphical.cycle_count self + 1
  /\ MinerDashboard.aligned (Graphical.dashboard self')
  /\ MinerDashboard.max_points (Graphical.dashboard self')
     = MinerDashboard.max_points (Graphical.dashboard self)
  /\ MinerDashboard.measurement_count (Graphical.dashboard self')
     = MinerDashboard.measurement_count (Graphical.dashboard self) + 2
  /\ length (MinerDashboard.time_data (Graphical.dashboard self'))
     = Nat.min (2 + length (MinerDashboard.time_data (Graphical.dashboard self)))
         (MinerDashboard.max_points (Graphical.dashboard self))
  /\ MinerDashboard.health_status (Graphical.dashboard self') = s
  /\ MinerDashboard.power_mode (Graphical.dashboard self') = "ACTIVE"%string
  /\ MinerDashboard.last_transmission (Graphical.dashboard self')
     = match s with
       | HealthStatus.CRITICAL | HealthStatus.EMERGENCY => clock
       | _ => MinerDashboard.last_transmission (Graphical.dashboard self)
       end.
Proof.
  intros R Al. cbv zeta. unfold Graphical.run_cycle.
  set (board1 := MinerDashboard.add_measurement 70 96 36.5%float false
                   (Graphical.dashboard self)).
  pose proof (simulate_vitals_classify d
                (Graphical.mk board1 (Graphical.cycle_count self)) R) as H.
  destruct (Graphical.simulate_vitals d
              (Graphical.mk board1 (Graphical.cycle_count self)))
    as [self1 [[hr sp] t]].
  cbn [Graphical.cycle_count Graphical.dashboard] in H.
  destruct H as (Hc & Hd & Hs).
  cbn [fst snd Graphical.cycle_count Graphical.dashboard].
  rewrite Hs, Hc, Hd.
  destruct (add_measurement_aligned 70 96 36.5%float false _ Al) as [Al1 L1].
  fold board1 in Al1, L1.
  set (board2 := MinerDashboard.set_health_status clock
                   (Graphical.simulation_status (Graphical.cycle_count self + 1))
                   board1).
  assert (Al2 : MinerDashboard.aligned board2) by exact Al1.
  destruct (add_measurement_aligned hr sp t true _ Al2) as [Al3 L3].
  split; [reflexivity |]. split; [reflexivity |]. split; [exact Al3 |].
  split; [reflexivity |]. split; [cbn; lia |].
  split.
  - rewrite L3.
    change (MinerDashboard.time_data board2) with (MinerDashboard.time_data board1).
    change (MinerDashboard.max_points board2)
      with (MinerDashboard.max_points (Graphical.dashboard self)).
    rewrite L1. lia.
  - repeat split.
Qed.

Lemma run_cycles_from (env : list (Graphical.Draws * String.string)) :
  Forall (fun e => Graphical.draws_in_range (fst e) = true) env ->
  forall self : Graphical.t,
    MinerDashboard.aligned (Graphical.dashboard self) ->
    let self' := fst (Graphical.run_cycles env self) in
    let ss := snd (Graphical.run_cycles env self) in
    ss = map (fun i => Graphical.simulation_status
                         (Graphical.cycle_count self + Z.of_nat i))
           (seq 1 (length env))
    /\ Graphical.cycle_count self'
       = Graphical.cycle_count self + Z.of_nat (length env)
    /\ MinerDashboard.aligned (Graphical.dashboard self')
    /\ MinerDashboard.max_points (Graphical.dashboard self')
       = MinerDashboard.max_points (Graphical.dashboard self)
    /\ MinerDashboard.measurement_count (Graphical.dashboard self')
       = MinerDashboard.measurement_count (Graphical.dashboard self)
         + 2 * Z.of_nat (length env)
    /\ length (MinerDashboard.time_data (Graphical.dashboard self'))
       = Nat.min (2 * length env
                  + length (MinerDashboard.time_data (Graphical.dashboard self)))
           (MinerDashboard.max_points (Graphical.dashboard self))
    /\ (~ In HealthStatus.CRITICAL ss ->
        MinerDashboard.last_transmission (Graphical.dashboard self')
        = MinerDashboard.last_transmission (Graphical.dashboard self)).
Proof.
  induction 1 as [| [d clock] env R _ IH]; intros self Al; cbv zeta.
  - cbn [Graphical.run_cycles fst snd length seq map].
    pose proof (proj1 Al) as B.
    split; [reflexivity |]. split; [lia |]. split; [exact Al |].
    split; [reflexivity |]. split; [lia |]. split; [lia |].
    intros _. reflexivity.
  - cbn [Graphical.run_cycles length].
    destruct (run_cycle_fields d clock self R Al)
      as (Hs & Hc & Al1 & Mx1 & Mc1 & L1 & _ & _ & Lt1).
    destruct (Graphical.run_cycle d clock self) as [self1 s].
    cbn [fst snd] in *.
    specialize (IH self1 Al1). cbv zeta in IH.
    destruct (Graphical.run_cycles env self1) as [self2 ss].
    cbn [fst snd] in *.
    destruct IH as (Hss & Hc2 & Al2 & Mx2 & Mc2 & L2 & Lt2).
    split; [| split; [| split; [| split; [| split; [| split]]]]].
    + cbn [seq map]. f_equal; [exact Hs |].
      rewrite Hss, <- (seq_shift (length env) 1), map_map.
      apply map_ext. intros i. rewrite Hc. f_equal. lia.
    + rewrite Hc2, Hc. lia.
    + exact Al2.
    + rewrite Mx2. exact Mx1.
    + rewrite Mc2, Mc1. lia.
    + rewrite L2, L1, Mx1. lia.
    + intros N. rewrite Lt2 by (intros I; apply N; right; exact I).
      rewrite Lt1, <- Hs.
      destruct s; try reflexivity.
      * exfalso. apply N. left. reflexivity.
      * exfalso. apply (graphical_status_not_emergency
                          (Graphical.cycle_count self + 1)).
        symmetry. exact Hs.
Qed.

Lemma graphical_status_first_critical (i : nat) :
  (1 <= i < 24)%nat ->
  Graphical.simulation_status (Z.of_nat i) <> HealthStatus.CRITICAL.
Proof.
  intros Hi. unfold Graphical.simulation_status. cbv zeta.
  assert (W : Z.b2z (Z.of_nat i mod 8 =? 0) + Z.b2z (Z.of_nat i mod 12 =? 0)
              + Z.b2z (Z.of_nat i mod 15 =? 0) <= 1).
  { destruct (Z.eqb_spec (Z.of_nat i mod 8) 0) as [E8 | E8],
      (Z.eqb_spec (Z.of_nat i mod 12) 0) as [E12 | E12],
      (Z.eqb_spec (Z.of_nat i mod 15) 0) as [E15 | E15]; cbn; try lia;
      exfalso; revert E8 E12 E15; Z.div_mod_to_equations; lia. }
  destruct (Z.leb_spec 2 (Z.b2z (Z.of_nat i mod 8 =? 0)
                          + Z.b2z (Z.of_nat i mod 12 =? 0)
                          + Z.b2z (Z.of_nat i mod 15 =? 0))); [lia |].
  destruct (1 <=? _); discriminate.
Qed.

(** X14. The dashboard's loop, run from a new monitor with draws inside
    the ranges and any clock readings: it counts one cycle and records two
    measurements (one asleep, one active) per iteration; the status of
    iteration [i] is the one its number fixes, never Emergency; the buffers
    hold two entries per iteration until they are full at 100; and while
    fewer than 24 iterations have run, no status was Critical and the
    dashboard still shows its last transmission as "Never". *)
Theorem graphical_run (env : list (Graphical.Draws * String.string)) :
  Forall (fun e => Graphical.draws_in_range (fst e) = true) env ->
  let self := fst (Graphical.run_cycles env Graphical.init) in
  let ss := snd (Graphical.run_cycles env Graphical.init) in
  ss = map (fun i => Graphical.simulation_status (Z.of_nat i))
         (seq 1 (length env))
  /\ ~ In HealthStatus.EMERGENCY ss
  /\ Graphical.cycle_count self = Z.of_nat (length env)
  /\ MinerDashboard.measurement_count (Graphical.dashboard self)
     = 2 * Z.of_nat (length env)
  /\ length (MinerDashboard.time_data (Graphical.dashboard self))
     = Nat.min (2 * length env) 100
  /\ ((length env < 24)%nat ->
      MinerDashboard.last_transmission (Graphical.dashboard self)
      = "Never"%string).
Proof.
  intros R. cbv zeta.
  assert (Al : MinerDashboard.aligned (Graphical.dashboard Graphical.init)).
  { unfold MinerDashboard.aligned. cbn. repeat split; lia. }
  destruct (run_cycles_from env R Graphical.init Al)
    as (Hss & Hc & _ & _ & Mc & L & Lt).
  cbn [Graphical.init Graphical.cycle_count Graphical.dashboard
       MinerDashboard.init MinerDashboard.measurement_count
       MinerDashboard.time_data MinerDashboard.max_points
       MinerDashboard.last_transmission length] in Hss, Hc, Mc, L, Lt.
  rewrite Nat.add_0_r in L.
  assert (Hss' : snd (Graphical.run_cycles env Graphical.init)
                 = map (fun i => Graphical.simulation_status (Z.of_nat i))
                     (seq 1 (length env))).
  { rewrite Hss. apply map_ext. intros i. reflexivity. }
  split; [exact Hss' |]. split.
  - rewrite Hss'. intros I. apply in_map_iff in I. destruct I as (i & E & _).
    exact (graphical_status_not_emergency _ E).
  - split; [exact Hc |]. split; [exact Mc |]. split; [exact L |].
    intros Lt24. apply Lt. rewrite Hss'. intros I.
    apply in_map_iff in I. destruct I as (i & E & I).
    apply in_seq in I.
    apply (graphical_status_first_critical i); [lia | exact E].
Qed.

Lemma graphical_run_witness :
  Forall (fun e => Graphical.draws_in_range (fst e) = true)
    (repeat (graphical_draws, "10:00:00"%string) 3)
  /\ Graphical.cycle_count
       (fst (Graphical.run_cycles
               (repeat (graphical_draws, "10:00:00"%string) 3)
               Graphical.init))
     = Z.of_nat (length (repeat (graphical_draws, "10:00:00"%string) 3)).
Proof.
  assert (R : Forall (fun e => Graphical.draws_in_range (fst e) = true)
                (repeat (graphical_draws, "10:00:00"%string) 3))
    by (repeat constructor).
  split; [exact R |].
  exact (proj1 (proj2 (proj2 (graphical_run _ R)))).
Defined.
